(** * ChatKitPanel: session bootstrap, script readiness and error banners

    A shallow embedding of the logic of the two [ChatKitPanel] sources of
    the repository (the React component that hosts the chat widget), and
    the properties the specification states about it.

    Layout of the development:
    - the JavaScript values the panel inspects (parsed JSON bodies, tool
      parameters), with the handful of language primitives used on them;
    - the component state ([PanelState]), the browser state it reads
      ([World]) and a small process monad ([Proc]) for handlers that update
      state, emit observable effects and may throw;
    - one module per source variant, each translated from its own file;
    - the component as a transition system over window events, widget
      callbacks and timers;
    - the properties. *)

From Stdlib Require Import ZArith Ascii.
From stdpp Require Import base option list gmap strings pretty.

Set Warnings "-register-all".

Local Open Scope Z_scope.

(** ** JavaScript values *)

(** The values [JSON.parse] can return, plus [undefined] for absent
    properties.  Numbers are restricted to integers: the panel only tests
    a number for truthiness and converts it to text. *)
Inductive JValue : Type :=
| JUndefined
| JNull
| JBool (b : bool)
| JNum (n : Z)
| JStr (s : string)
| JArr (items : list JValue)
| JObj (fields : list (string * JValue)).

(** [Boolean(s)] for a string: only the empty string is falsy. *)
Definition str_truthy (s : string) : bool :=
  match s with
  | EmptyString => false
  | String _ _ => true
  end.

(** [Boolean(v)]: [undefined], [null], [false], [0] and the empty string are
    falsy; every object and array is truthy. *)
Definition truthy (v : JValue) : bool :=
  match v with
  | JUndefined | JNull => false
  | JBool b => b
  | JNum n => negb (n =? 0)
  | JStr s => str_truthy s
  | JArr _ | JObj _ => true
  end.

(** Own-property lookup in the field list of an object literal. *)
Fixpoint lookup_field (key : string) (fields : list (string * JValue))
  : option JValue :=
  match fields with
  | [] => None
  | (k, v) :: rest => if String.eqb k key then Some v else lookup_field key rest
  end.

(** [v.key] on a value that is neither [null] nor [undefined].  The
    property names the panel reads ([error], [message], [details],
    [client_secret], [theme], [fact_id], [fact_text]) are neither array
    indices nor [length], and no built-in prototype defines them, so on
    primitives and arrays the read yields [undefined]. *)
Definition get_prop (key : string) (v : JValue) : JValue :=
  match v with
  | JObj fields => default JUndefined (lookup_field key fields)
  | _ => JUndefined
  end.

(** [key in v] for a value whose [typeof] is ["object"] and that is not
    [null]; same remark on the property names as for [get_prop]. *)
Definition has_prop (key : string) (v : JValue) : bool :=
  match v with
  | JObj fields => bool_decide (is_Some (lookup_field key fields))
  | _ => false
  end.

(** [typeof v === "string"], returning the string when it is one. *)
Definition as_string (v : JValue) : option string :=
  match v with
  | JStr s => Some s
  | _ => None
  end.

(** [typeof v === "object"]: objects, arrays and [null]. *)
Definition typeof_object (v : JValue) : bool :=
  match v with
  | JNull | JArr _ | JObj _ => true
  | _ => false
  end.

(** [a ?? b]. *)
Definition nullish (a b : JValue) : JValue :=
  match a with
  | JUndefined | JNull => b
  | _ => a
  end.

(** ** Strings

    A [string] stands for a JavaScript string whose code units are below
    256, one [ascii] per code unit. *)

(** The code units below 256 matched by the regular expression class [\s]
    (and stripped by [trim]): TAB, LF, VT, FF, CR, space and NBSP. *)
Definition is_whitespace (c : ascii) : bool :=
  let n := nat_of_ascii c in
  ((9 <=? n)%nat && (n <=? 13)%nat) || (n =? 32)%nat || (n =? 160)%nat.

(** [s.replace(/\s+/g, " ")]; [in_run] tells that the preceding code unit
    was whitespace, already replaced. *)
Fixpoint collapse_whitespace (in_run : bool) (s : string) : string :=
  match s with
  | EmptyString => EmptyString
  | String c rest =>
      if is_whitespace c then
        if in_run then collapse_whitespace true rest
        else String " "%char (collapse_whitespace true rest)
      else String c (collapse_whitespace false rest)
  end.

Fixpoint trim_start (s : string) : string :=
  match s with
  | EmptyString => EmptyString
  | String c rest => if is_whitespace c then trim_start rest else s
  end.

(** Drops the trailing whitespace: a code unit is kept when it is not
    whitespace or when something is kept after it. *)
Fixpoint trim_end (s : string) : string :=
  match s with
  | EmptyString => EmptyString
  | String c rest =>
      match trim_end rest with
      | EmptyString => if is_whitespace c then EmptyString else String c EmptyString
      | kept => String c kept
      end
  end.

(** [s.trim()]. *)
Definition trim (s : string) : string := trim_end (trim_start s).

(** [s.startsWith(p)]. *)
Definition startsWith (s p : string) : bool := String.prefix p s.

(** [String(v)].  The decimal rendering of a number is the runtime's
    ([Number_toString]); in an array, [null] and [undefined] items are
    rendered empty and the items joined with commas. *)
Section ToString.
Variable Number_toString : Z -> string.

Fixpoint js_String (v : JValue) : string :=
  match v with
  | JUndefined => "undefined"
  | JNull => "null"
  | JBool true => "true"
  | JBool false => "false"
  | JNum n => Number_toString n
  | JStr s => s
  | JArr items =>
      let item_text (x : JValue) : string :=
        match x with
        | JUndefined | JNull => EmptyString
        | _ => js_String x
        end in
      (fix join (l : list JValue) : string :=
         match l with
         | [] => EmptyString
         | [x] => item_text x
         | x :: rest => item_text x +:+ "," +:+ join rest
         end) items
  | JObj _ => "[object Object]"
  end.
End ToString.

(** ** Data model of the panel *)

(** [ColorScheme] of the colour-scheme hook: two variants. *)
Inductive ColorScheme : Type := light | dark.

(** [FactAction]: the action relayed to the host; its [type] is always
    ["save"]. *)
Record FactAction : Type := {
  factId : string;
  factText : string;
}.

(** [ErrorState]: [string | null] fields as [option string]. *)
Record ErrorState : Type := {
  script : option string;
  session : option string;
  integration : option string;
  retryable : bool;
}.

(** [Partial<ErrorState>]: a field is [None] when the update leaves it out. *)
Record ErrorUpdate : Type := {
  upd_script : option (option string);
  upd_session : option (option string);
  upd_integration : option (option string);
  upd_retryable : option bool;
}.

Definition no_update : ErrorUpdate :=
  {| upd_script := None; upd_session := None;
     upd_integration := None; upd_retryable := None |}.

(** [{ ...current, ...updates }]. *)
Definition spread (current : ErrorState) (updates : ErrorUpdate) : ErrorState :=
  {| script := default (script current) (upd_script updates);
     session := default (session current) (upd_session updates);
     integration := default (integration current) (upd_integration updates);
     retryable := default (retryable current) (upd_retryable updates) |}.

Inductive ScriptStatus : Type := pending | ready | error.

(** [a === b] on two statuses. *)
Definition ScriptStatus_eqb (a b : ScriptStatus) : bool :=
  match a, b with
  | pending, pending | ready, ready | error, error => true
  | _, _ => false
  end.

(** The state of one mounted [ChatKitPanel]: its two refs and four state
    cells.  [widgetInstanceKey] is a JavaScript number that only counts
    remounts; it is modelled as an unbounded integer. *)
Record PanelState : Type := {
  processedFacts : gset string;
  errors : ErrorState;
  isInitializingSession : bool;
  isMountedRef : bool;
  scriptStatus : ScriptStatus;
  widgetInstanceKey : Z;
}.

(** What the panel reads from, and leaves in, the browser window. *)
Record World : Type := {
  panel : PanelState;
  (** [window.customElements.get("openai-chatkit")] is defined *)
  chatkitDefined : bool;
  (** the two window listeners of the script effect are attached *)
  listening : bool;
  (** delay in milliseconds of the armed timer of the script effect *)
  timeoutId : option Z;
  (** the [currentSecret] arguments of the bootstrap calls suspended at
      their [await] *)
  pendingCalls : list (option string);
}.

(** A thrown value: an [Error] with its message, or anything else. *)
Inductive Thrown : Type :=
| ErrorObject (message : string)
| NotAnError (v : JValue).

(** The HTTP response of [fetch] with its body text already read. *)
Record Response : Type := {
  status : Z;
  statusText : string;
  body : string;
}.

(** [response.ok]: the status is in the range 200 to 299. *)
Definition ok (r : Response) : bool :=
  (200 <=? status r) && (status r <=? 299).

(** How the two awaits of the bootstrap call settle: [fetch] and the body
    read both succeed, or one of them rejects. *)
Inductive FetchOutcome : Type :=
| Responded (r : Response)
| Rejected (e : Thrown).

(** [invocation] of a client tool; [params] is a [Record<string, unknown>]. *)
Record Invocation : Type := {
  name : string;
  params : list (string * JValue);
}.

(** [{ success: boolean }]. *)
Record ToolResult : Type := { success : bool }.

(** What a handler or an effect does that is observable outside the
    component and the window state.  Console payloads are left out, only
    the label is kept.  The debug line that the render body itself logs in
    development is not recorded: effect lists hold what handlers, effects
    and callbacks emit, not what a render logs. *)
Inductive Effect : Type :=
| ConsoleInfo (label : string)
| ConsoleDebug (label : string)
| ConsoleError (label : string)
| Fetch (url method workflowId : string)
| CallOnWidgetAction (action : FactAction)
| CallOnThemeRequest (scheme : ColorScheme)
| CallOnResponseEnd.

(** What the sources import or read from their environment: the two
    constants of [@/lib/config], the two module-level flags, and the two
    runtime services used on untyped data. *)
Record Env : Type := {
  WORKFLOW_ID : string;
  CREATE_SESSION_ENDPOINT : string;
  isBrowser : bool;
  isDev : bool;
  JSON_parse : string -> option JValue;
  Number_toString : Z -> string;
}.

(** ** Handlers as processes

    A handler runs to completion on the single UI thread: it reads and
    updates the [World], emits [Effect]s in order, and completes normally
    or by throwing.  State setters of React are applied in call order, so a
    handler's updates are modelled as immediate. *)

Inductive Completion (A : Type) : Type :=
| Normal (a : A)
| Abrupt (e : Thrown).
Arguments Normal {A} a.
Arguments Abrupt {A} e.

Definition Proc (A : Type) : Type :=
  World -> Completion A * World * list Effect.

Global Instance Proc_ret : MRet Proc :=
  fun A (a : A) (w : World) => (Normal a, w, []).

Global Instance Proc_bind : MBind Proc :=
  fun A B (k : A -> Proc B) (m : Proc A) (w : World) =>
    match m w with
    | (Normal a, w1, l1) =>
        match k a w1 with
        | (c, w2, l2) => (c, w2, l1 ++ l2)
        end
    | (Abrupt e, w1, l1) => (Abrupt e, w1, l1)
    end.

Definition throw {A : Type} (e : Thrown) : Proc A :=
  fun w => (Abrupt e, w, []).

Definition emit (e : Effect) : Proc unit :=
  fun w => (Normal tt, w, [e]).

Definition read {A : Type} (f : World -> A) : Proc A :=
  fun w => (Normal (f w), w, []).

Definition update (f : World -> World) : Proc unit :=
  fun w => (Normal tt, f w, []).

Definition when (b : bool) (p : Proc unit) : Proc unit :=
  if b then p else mret tt.

(** [try { body } catch (e) { handler } finally { finalizer }]: the
    finalizer runs whatever happened, and the completion is that of the
    body or handler unless the finalizer itself throws. *)
Definition try_catch_finally {A : Type}
    (body : Proc A) (handler : Thrown -> Proc A) (finalizer : Proc unit)
  : Proc A :=
  fun w =>
    match body w with
    | (c1, w1, l1) =>
        match (match c1 with
               | Normal a => (Normal a, w1, [])
               | Abrupt e => handler e w1
               end) with
        | (c2, w2, l2) =>
            match finalizer w2 with
            | (Normal _, w3, l3) => (c2, w3, l1 ++ l2 ++ l3)
            | (Abrupt e, w3, l3) => (Abrupt e, w3, l1 ++ l2 ++ l3)
            end
        end
    end.

(** [await] of the settled bootstrap request. *)
Definition await (net : FetchOutcome) : Proc Response :=
  match net with
  | Responded r => mret r
  | Rejected e => throw e
  end.

(** Results of running a process. *)
Definition completion {A : Type} (r : Completion A * World * list Effect)
  : Completion A := r.1.1.
Definition world_after {A : Type} (r : Completion A * World * list Effect)
  : World := r.1.2.
Definition effects_of {A : Type} (r : Completion A * World * list Effect)
  : list Effect := r.2.

(** *** State cells, refs and window state *)

Definition with_panel (f : PanelState -> PanelState) (w : World) : World :=
  {| panel := f (panel w); chatkitDefined := chatkitDefined w;
     listening := listening w; timeoutId := timeoutId w;
     pendingCalls := pendingCalls w |}.

(** [setErrors(updater)]. *)
Definition setErrors (f : ErrorState -> ErrorState) : Proc unit :=
  update (with_panel (fun p =>
    {| processedFacts := processedFacts p; errors := f (errors p);
       isInitializingSession := isInitializingSession p;
       isMountedRef := isMountedRef p; scriptStatus := scriptStatus p;
       widgetInstanceKey := widgetInstanceKey p |})).

Definition setIsInitializingSession (b : bool) : Proc unit :=
  update (with_panel (fun p =>
    {| processedFacts := processedFacts p; errors := errors p;
       isInitializingSession := b;
       isMountedRef := isMountedRef p; scriptStatus := scriptStatus p;
       widgetInstanceKey := widgetInstanceKey p |})).

Definition setScriptStatus (s : ScriptStatus) : Proc unit :=
  update (with_panel (fun p =>
    {| processedFacts := processedFacts p; errors := errors p;
       isInitializingSession := isInitializingSession p;
       isMountedRef := isMountedRef p; scriptStatus := s;
       widgetInstanceKey := widgetInstanceKey p |})).

(** [setWidgetInstanceKey(updater)]. *)
Definition setWidgetInstanceKey (f : Z -> Z) : Proc unit :=
  update (with_panel (fun p =>
    {| processedFacts := processedFacts p; errors := errors p;
       isInitializingSession := isInitializingSession p;
       isMountedRef := isMountedRef p; scriptStatus := scriptStatus p;
       widgetInstanceKey := f (widgetInstanceKey p) |})).

(** [isMountedRef.current = b]. *)
Definition set_isMountedRef (b : bool) : Proc unit :=
  update (with_panel (fun p =>
    {| processedFacts := processedFacts p; errors := errors p;
       isInitializingSession := isInitializingSession p;
       isMountedRef := b; scriptStatus := scriptStatus p;
       widgetInstanceKey := widgetInstanceKey p |})).

(** Mutation of the set held by [processedFacts.current]. *)
Definition set_processedFacts (f : gset string -> gset string) : Proc unit :=
  update (with_panel (fun p =>
    {| processedFacts := f (processedFacts p); errors := errors p;
       isInitializingSession := isInitializingSession p;
       isMountedRef := isMountedRef p; scriptStatus := scriptStatus p;
       widgetInstanceKey := widgetInstanceKey p |})).

(** [window.addEventListener] / [removeEventListener] for the two script
    events. *)
Definition set_listening (b : bool) : Proc unit :=
  update (fun w =>
    {| panel := panel w; chatkitDefined := chatkitDefined w;
       listening := b; timeoutId := timeoutId w;
       pendingCalls := pendingCalls w |}).

(** [window.setTimeout(callback, ms)] and [window.clearTimeout]. *)
Definition set_timeoutId (t : option Z) : Proc unit :=
  update (fun w =>
    {| panel := panel w; chatkitDefined := chatkitDefined w;
       listening := listening w; timeoutId := t;
       pendingCalls := pendingCalls w |}).

(** [cond ?? fallback] on a [string | null]. *)
Definition nullish_str (a b : option string) : option string :=
  match a with
  | Some s => Some s
  | None => b
  end.

(** [Boolean(x)] for a [string | null]. *)
Definition opt_truthy (a : option string) : bool :=
  match a with
  | Some s => str_truthy s
  | None => false
  end.

(** ** What the runtime holds of a panel

    React keeps the effects and their cleanups, the window keeps the
    listeners and the timer callback, the widget hook keeps the callbacks,
    and the error overlay keeps [onRetry]. *)
Record Component : Type := {
  c_initialState : bool -> PanelState;
  c_mountedCleanup : Proc unit;
  c_scriptEffect : Proc unit;
  c_scriptEffectCleanup : Proc unit;
  c_handleLoaded : Proc unit;
  c_handleError : JValue -> Proc unit;
  c_timeoutCallback : Proc unit;
  c_workflowEffect : Proc unit;
  c_getClientSecret_request : option string -> Proc unit;
  c_getClientSecret_response : option string -> FetchOutcome -> Proc JValue;
  c_onClientTool : Invocation -> Proc ToolResult;
  c_onResponseEnd : Proc unit;
  c_onResponseStart : Proc unit;
  c_onThreadChange : Proc unit;
  c_onError : Proc unit;
  c_onRetry : ErrorState -> option (Proc unit);
}.

(** ** The panel, first source variant *)

Module Part_001.
Section Panel.
Context (env : Env).

Definition createInitialErrors : ErrorState :=
  {| script := None; session := None; integration := None;
     retryable := false |}.

(** The refs and state cells of a first render: [useRef] and [useState]
    initial values.  [defined] is what
    [window.customElements?.get("openai-chatkit")] answers then. *)
Definition initialState (defined : bool) : PanelState :=
  {| processedFacts := ∅;
     errors := createInitialErrors;
     isInitializingSession := true;
     isMountedRef := true;
     scriptStatus := if isBrowser env && defined then ready else pending;
     widgetInstanceKey := 0 |}.

Definition setErrorState (updates : ErrorUpdate) : Proc unit :=
  setErrors (fun current => spread current updates).

(** Cleanup of the first effect. *)
Definition mountedCleanup : Proc unit := set_isMountedRef false.

(** *** Script readiness effect *)

Definition handleLoaded : Proc unit :=
  mounted ← read (fun w => isMountedRef (panel w));
  if negb mounted then mret tt
  else
    setScriptStatus ready;;
    setErrorState
      {| upd_script := Some None; upd_session := None;
         upd_integration := None; upd_retryable := None |}.

(** [event_detail] is [event.detail], [undefined] on a plain event. *)
Definition handleError (event_detail : JValue) : Proc unit :=
  emit (ConsoleError "Failed to load chatkit.js for some reason");;
  mounted ← read (fun w => isMountedRef (panel w));
  if negb mounted then mret tt
  else
    setScriptStatus error;;
    let detail := nullish event_detail (JStr "unknown error") in
    setErrorState
      {| upd_script :=
           Some (Some ("Error: " +:+ js_String (Number_toString env) detail));
         upd_session := None; upd_integration := None;
         upd_retryable := Some false |};;
    setIsInitializingSession false.

(** The callback handed to [window.setTimeout]. *)
Definition timeoutCallback : Proc unit :=
  defined ← read chatkitDefined;
  if negb defined then
    handleError
      (JStr "ChatKit web component is unavailable. Verify that the script URL is reachable.")
  else mret tt.

(** Body of the effect with dependencies [scriptStatus, setErrorState]. *)
Definition scriptEffect : Proc unit :=
  if negb (isBrowser env) then mret tt
  else
    set_listening true;;
    defined ← read chatkitDefined;
    if (defined : bool) then handleLoaded
    else
      status ← read (fun w => scriptStatus (panel w));
      if ScriptStatus_eqb status pending then set_timeoutId (Some 5000)
      else mret tt.

(** Its cleanup; outside a browser the effect returns none. *)
Definition scriptEffectCleanup : Proc unit :=
  if negb (isBrowser env) then mret tt
  else
    set_listening false;;
    set_timeoutId None.

(** *** Workflow configuration *)

Definition isWorkflowConfigured : bool :=
  str_truthy (WORKFLOW_ID env)
  && negb (startsWith (WORKFLOW_ID env) "wf_replace").

Definition workflowEffect : Proc unit :=
  mounted ← read (fun w => isMountedRef (panel w));
  if negb isWorkflowConfigured && mounted then
    setErrorState
      {| upd_script := None;
         upd_session :=
           Some (Some "Set NEXT_PUBLIC_CHATKIT_WORKFLOW_ID in your .env.local file.");
         upd_integration := None; upd_retryable := Some false |};;
    setIsInitializingSession false
  else mret tt.

Definition handleResetChat : Proc unit :=
  set_processedFacts (fun _ => ∅);;
  (if isBrowser env then
     defined ← read chatkitDefined;
     setScriptStatus (if (defined : bool) then ready else pending)
   else mret tt);;
  setIsInitializingSession true;;
  setErrors (fun _ => createInitialErrors);;
  setWidgetInstanceKey (fun prev => prev + 1).

(** *** Session bootstrap *)

Definition extractErrorDetail (payload : JValue) (fallback : string)
  : string :=
  if negb (truthy payload) then fallback
  else
    let error := get_prop "error" payload in
    match as_string error with
    | Some s => s
    | None =>
        match
          (if truthy error && typeof_object error && has_prop "message" error
           then as_string (get_prop "message" error) else None)
        with
        | Some s => s
        | None =>
            let details := get_prop "details" payload in
            match as_string details with
            | Some s => s
            | None =>
                match
                  (if truthy details && typeof_object details
                      && has_prop "error" details
                   then
                     let nestedError := get_prop "error" details in
                     match as_string nestedError with
                     | Some s => Some s
                     | None =>
                         if truthy nestedError && typeof_object nestedError
                            && has_prop "message" nestedError
                         then as_string (get_prop "message" nestedError)
                         else None
                     end
                   else None)
                with
                | Some s => s
                | None =>
                    match as_string (get_prop "message" payload) with
                    | Some s => s
                    | None => fallback
                    end
                end
            end
        end
    end.

(** [getClientSecret] up to its first [await]: the synchronous part of
    the call, ending with the [fetch] request being issued. *)
Definition getClientSecret_request (currentSecret : option string)
  : Proc unit :=
  when (isDev env) (emit (ConsoleInfo "[ChatKitPanel] getClientSecret invoked"));;
  if negb isWorkflowConfigured then
    let detail :=
      "Set NEXT_PUBLIC_CHATKIT_WORKFLOW_ID in your .env.local file." in
    mounted ← read (fun w => isMountedRef (panel w));
    when (mounted : bool)
      (setErrorState
         {| upd_script := None; upd_session := Some (Some detail);
            upd_integration := None; upd_retryable := Some false |};;
       setIsInitializingSession false);;
    throw (ErrorObject detail)
  else
    mounted ← read (fun w => isMountedRef (panel w));
    when (mounted : bool)
      (when (negb (opt_truthy currentSecret)) (setIsInitializingSession true);;
       setErrorState
         {| upd_script := None; upd_session := Some None;
            upd_integration := Some None; upd_retryable := Some false |});;
    emit (Fetch (CREATE_SESSION_ENDPOINT env) "POST" (WORKFLOW_ID env)).

(** [getClientSecret] from the settlement of the request on: the rest of
    the [try] block with its [catch] and [finally]. *)
Definition getClientSecret_response
    (currentSecret : option string) (net : FetchOutcome) : Proc JValue :=
  try_catch_finally
    (response ← await net;
     let raw := body response in
     when (isDev env) (emit (ConsoleInfo "[ChatKitPanel] createSession response"));;
     data ←
       (if str_truthy raw then
          match JSON_parse env raw with
          | Some parsed => mret parsed
          | None =>
              emit (ConsoleError "Failed to parse create-session response");;
              mret (JObj [])
          end
        else mret (JObj []));
     if negb (ok response) then
       let detail := extractErrorDetail data (statusText response) in
       emit (ConsoleError "Create session request failed");;
       throw (ErrorObject detail)
     else
       let clientSecret :=
         match data with
         | JUndefined | JNull => JUndefined
         | _ => get_prop "client_secret" data
         end in
       if negb (truthy clientSecret) then
         throw (ErrorObject "Missing client secret in response")
       else
         mounted ← read (fun w => isMountedRef (panel w));
         when (mounted : bool)
           (setErrorState
              {| upd_script := None; upd_session := Some None;
                 upd_integration := Some None; upd_retryable := None |});;
         mret clientSecret)
    (fun thrown =>
       emit (ConsoleError "Failed to create ChatKit session");;
       let detail :=
         match thrown with
         | ErrorObject message => message
         | NotAnError _ => "Unable to start ChatKit session."
         end in
       mounted ← read (fun w => isMountedRef (panel w));
       when (mounted : bool)
         (setErrorState
            {| upd_script := None; upd_session := Some (Some detail);
               upd_integration := None; upd_retryable := Some false |});;
       throw (match thrown with
              | ErrorObject _ => thrown
              | NotAnError _ => ErrorObject detail
              end))
    (mounted ← read (fun w => isMountedRef (panel w));
     when (mounted && negb (opt_truthy currentSecret))
       (setIsInitializingSession false)).

(** The whole call when nothing else runs while it is suspended. *)
Definition getClientSecret
    (currentSecret : option string) (net : FetchOutcome) : Proc JValue :=
  getClientSecret_request currentSecret;;
  getClientSecret_response currentSecret net.

(** *** Callbacks handed to the widget hook *)

(** [requested === "light" || requested === "dark"]. *)
Definition requestedScheme (requested : JValue) : option ColorScheme :=
  match requested with
  | JStr s =>
      if String.eqb s "light" then Some light
      else if String.eqb s "dark" then Some dark
      else None
  | _ => None
  end.

Definition onClientTool (invocation : Invocation) : Proc ToolResult :=
  if String.eqb (name invocation) "switch_theme" then
    let requested := get_prop "theme" (JObj (params invocation)) in
    match requestedScheme requested with
    | Some scheme =>
        when (isDev env) (emit (ConsoleDebug "[ChatKitPanel] switch_theme"));;
        emit (CallOnThemeRequest scheme);;
        mret {| success := true |}
    | None => mret {| success := false |}
    end
  else if String.eqb (name invocation) "record_fact" then
    let id :=
      js_String (Number_toString env)
        (nullish (get_prop "fact_id" (JObj (params invocation)))
                 (JStr EmptyString)) in
    let text :=
      js_String (Number_toString env)
        (nullish (get_prop "fact_text" (JObj (params invocation)))
                 (JStr EmptyString)) in
    seen ← read (fun w => bool_decide (id ∈ processedFacts (panel w)));
    if negb (str_truthy id) || seen then mret {| success := true |}
    else
      set_processedFacts (fun facts => {[ id ]} ∪ facts);;
      emit (CallOnWidgetAction
              {| factId := id;
                 factText := trim (collapse_whitespace false text) |});;
      mret {| success := true |}
  else mret {| success := false |}.

Definition onResponseEnd : Proc unit := emit CallOnResponseEnd.

Definition onResponseStart : Proc unit :=
  setErrorState
    {| upd_script := None; upd_session := None;
       upd_integration := Some None; upd_retryable := Some false |}.

Definition onThreadChange : Proc unit := set_processedFacts (fun _ => ∅).

Definition onError : Proc unit := emit (ConsoleError "ChatKit error").

(** *** Values derived at render *)

Definition activeError (e : ErrorState) : option string :=
  nullish_str (session e) (integration e).

Definition blockingError (e : ErrorState) : option string :=
  nullish_str (script e) (activeError e).

(** The [onRetry] property given to the error overlay:
    [blockingError && errors.retryable ? handleResetChat : null]. *)
Definition onRetry (e : ErrorState) : option (Proc unit) :=
  if opt_truthy (blockingError e) && retryable e then Some handleResetChat
  else None.

(** *** Presentation *)

(** Text of the status indicator in the header. *)
Definition statusLabel (p : PanelState) : string :=
  if negb (opt_truthy (blockingError (errors p)))
     && negb (isInitializingSession p)
  then "Ready" else "Connecting...".

(** Title of the loading overlay. *)
Definition loadingTitle : string :=
  "Initializing your grading assistant".

(** [theme.color.accent.primary] of the widget options. *)
Definition accentPrimary : string := "#2563eb".

Definition component : Component :=
  {| c_initialState := initialState;
     c_mountedCleanup := mountedCleanup;
     c_scriptEffect := scriptEffect;
     c_scriptEffectCleanup := scriptEffectCleanup;
     c_handleLoaded := handleLoaded;
     c_handleError := handleError;
     c_timeoutCallback := timeoutCallback;
     c_workflowEffect := workflowEffect;
     c_getClientSecret_request := getClientSecret_request;
     c_getClientSecret_response := getClientSecret_response;
     c_onClientTool := onClientTool;
     c_onResponseEnd := onResponseEnd;
     c_onResponseStart := onResponseStart;
     c_onThreadChange := onThreadChange;
     c_onError := onError;
     c_onRetry := onRetry |}.
End Panel.
End Part_001.

(** ** The panel, second source variant *)

Module Part_002.
Section Panel.
Context (env : Env).

Definition createInitialErrors : ErrorState :=
  {| script := None; session := None; integration := None;
     retryable := false |}.

(** The refs and state cells of a first render: [useRef] and [useState]
    initial values.  [defined] is what
    [window.customElements?.get("openai-chatkit")] answers then. *)
Definition initialState (defined : bool) : PanelState :=
  {| processedFacts := ∅;
     errors := createInitialErrors;
     isInitializingSession := true;
     isMountedRef := true;
     scriptStatus := if isBrowser env && defined then ready else pending;
     widgetInstanceKey := 0 |}.

Definition setErrorState (updates : ErrorUpdate) : Proc unit :=
  setErrors (fun current => spread current updates).

(** Cleanup of the first effect. *)
Definition mountedCleanup : Proc unit := set_isMountedRef false.

(** *** Script readiness effect *)

Definition handleLoaded : Proc unit :=
  mounted ← read (fun w => isMountedRef (panel w));
  if negb mounted then mret tt
  else
    setScriptStatus ready;;
    setErrorState
      {| upd_script := Some None; upd_session := None;
         upd_integration := None; upd_retryable := None |}.

(** [event_detail] is [event.detail], [undefined] on a plain event. *)
Definition handleError (event_detail : JValue) : Proc unit :=
  emit (ConsoleError "Failed to load chatkit.js for some reason");;
  mounted ← read (fun w => isMountedRef (panel w));
  if negb mounted then mret tt
  else
    setScriptStatus error;;
    let detail := nullish event_detail (JStr "unknown error") in
    setErrorState
      {| upd_script :=
           Some (Some ("Error: " +:+ js_String (Number_toString env) detail));
         upd_session := None; upd_integration := None;
         upd_retryable := Some false |};;
    setIsInitializingSession false.

(** The callback handed to [window.setTimeout]. *)
Definition timeoutCallback : Proc unit :=
  defined ← read chatkitDefined;
  if negb defined then
    handleError
      (JStr "ChatKit web component is unavailable. Verify that the script URL is reachable.")
  else mret tt.

(** Body of the effect with dependencies [scriptStatus, setErrorState]. *)
Definition scriptEffect : Proc unit :=
  if negb (isBrowser env) then mret tt
  else
    set_listening true;;
    defined ← read chatkitDefined;
    if (defined : bool) then handleLoaded
    else
      status ← read (fun w => scriptStatus (panel w));
      if ScriptStatus_eqb status pending then set_timeoutId (Some 5000)
      else mret tt.

(** Its cleanup; outside a browser the effect returns none. *)
Definition scriptEffectCleanup : Proc unit :=
  if negb (isBrowser env) then mret tt
  else
    set_listening false;;
    set_timeoutId None.

(** *** Workflow configuration *)

Definition isWorkflowConfigured : bool :=
  str_truthy (WORKFLOW_ID env)
  && negb (startsWith (WORKFLOW_ID env) "wf_replace").

Definition workflowEffect : Proc unit :=
  mounted ← read (fun w => isMountedRef (panel w));
  if negb isWorkflowConfigured && mounted then
    setErrorState
      {| upd_script := None;
         upd_session :=
           Some (Some "Set NEXT_PUBLIC_CHATKIT_WORKFLOW_ID in your .env.local file.");
         upd_integration := None; upd_retryable := Some false |};;
    setIsInitializingSession false
  else mret tt.

Definition handleResetChat : Proc unit :=
  set_processedFacts (fun _ => ∅);;
  (if isBrowser env then
     defined ← read chatkitDefined;
     setScriptStatus (if (defined : bool) then ready else pending)
   else mret tt);;
  setIsInitializingSession true;;
  setErrors (fun _ => createInitialErrors);;
  setWidgetInstanceKey (fun prev => prev + 1).

(** *** Session bootstrap *)

Definition extractErrorDetail (payload : JValue) (fallback : string)
  : string :=
  if negb (truthy payload) then fallback
  else
    let error := get_prop "error" payload in
    match as_string error with
    | Some s => s
    | None =>
        match
          (if truthy error && typeof_object error && has_prop "message" error
           then as_string (get_prop "message" error) else None)
        with
        | Some s => s
        | None =>
            let details := get_prop "details" payload in
            match as_string details with
            | Some s => s
            | None =>
                match
                  (if truthy details && typeof_object details
                      && has_prop "error" details
                   then
                     let nestedError := get_prop "error" details in
                     match as_string nestedError with
                     | Some s => Some s
                     | None =>
                         if truthy nestedError && typeof_object nestedError
                            && has_prop "message" nestedError
                         then as_string (get_prop "message" nestedError)
                         else None
                     end
                   else None)
                with
                | Some s => s
                | None =>
                    match as_string (get_prop "message" payload) with
                    | Some s => s
                    | None => fallback
                    end
                end
            end
        end
    end.

(** [getClientSecret] up to its first [await]: the synchronous part of
    the call, ending with the [fetch] request being issued. *)
Definition getClientSecret_request (currentSecret : option string)
  : Proc unit :=
  when (isDev env) (emit (ConsoleInfo "[ChatKitPanel] getClientSecret invoked"));;
  if negb isWorkflowConfigured then
    let detail :=
      "Set NEXT_PUBLIC_CHATKIT_WORKFLOW_ID in your .env.local file." in
    mounted ← read (fun w => isMountedRef (panel w));
    when (mounted : bool)
      (setErrorState
         {| upd_script := None; upd_session := Some (Some detail);
            upd_integration := None; upd_retryable := Some false |};;
       setIsInitializingSession false);;
    throw (ErrorObject detail)
  else
    mounted ← read (fun w => isMountedRef (panel w));
    when (mounted : bool)
      (when (negb (opt_truthy currentSecret)) (setIsInitializingSession true);;
       setErrorState
         {| upd_script := None; upd_session := Some None;
            upd_integration := Some None; upd_retryable := Some false |});;
    emit (Fetch (CREATE_SESSION_ENDPOINT env) "POST" (WORKFLOW_ID env)).

(** [getClientSecret] from the settlement of the request on: the rest of
    the [try] block with its [catch] and [finally]. *)
Definition getClientSecret_response
    (currentSecret : option string) (net : FetchOutcome) : Proc JValue :=
  try_catch_finally
    (response ← await net;
     let raw := body response in
     when (isDev env) (emit (ConsoleInfo "[ChatKitPanel] createSession response"));;
     data ←
       (if str_truthy raw then
          match JSON_parse env raw with
          | Some parsed => mret parsed
          | None =>
              emit (ConsoleError "Failed to parse create-session response");;
              mret (JObj [])
          end
        else mret (JObj []));
     if negb (ok response) then
       let detail := extractErrorDetail data (statusText response) in
       emit (ConsoleError "Create session request failed");;
       throw (ErrorObject detail)
     else
       let clientSecret :=
         match data with
         | JUndefined | JNull => JUndefined
         | _ => get_prop "client_secret" data
         end in
       if negb (truthy clientSecret) then
         throw (ErrorObject "Missing client secret in response")
       else
         mounted ← read (fun w => isMountedRef (panel w));
         when (mounted : bool)
           (setErrorState
              {| upd_script := None; upd_session := Some None;
                 upd_integration := Some None; upd_retryable := None |});;
         mret clientSecret)
    (fun thrown =>
       emit (ConsoleError "Failed to create ChatKit session");;
       let detail :=
         match thrown with
         | ErrorObject message => message
         | NotAnError _ => "Unable to start ChatKit session."
         end in
       mounted ← read (fun w => isMountedRef (panel w));
       when (mounted : bool)
         (setErrorState
            {| upd_script := None; upd_session := Some (Some detail);
               upd_integration := None; upd_retryable := Some false |});;
       throw (match thrown with
              | ErrorObject _ => thrown
              | NotAnError _ => ErrorObject detail
              end))
    (mounted ← read (fun w => isMountedRef (panel w));
     when (mounted && negb (opt_truthy currentSecret))
       (setIsInitializingSession false)).

(** The whole call when nothing else runs while it is suspended. *)
Definition getClientSecret
    (currentSecret : option string) (net : FetchOutcome) : Proc JValue :=
  getClientSecret_request currentSecret;;
  getClientSecret_response currentSecret net.

(** *** Callbacks handed to the widget hook *)

(** [requested === "light" || requested === "dark"]. *)
Definition requestedScheme (requested : JValue) : option ColorScheme :=
  match requested with
  | JStr s =>
      if String.eqb s "light" then Some light
      else if String.eqb s "dark" then Some dark
      else None
  | _ => None
  end.

Definition onClientTool (invocation : Invocation) : Proc ToolResult :=
  if String.eqb (name invocation) "switch_theme" then
    let requested := get_prop "theme" (JObj (params invocation)) in
    match requestedScheme requested with
    | Some scheme =>
        when (isDev env) (emit (ConsoleDebug "[ChatKitPanel] switch_theme"));;
        emit (CallOnThemeRequest scheme);;
        mret {| success := true |}
    | None => mret {| success := false |}
    end
  else if String.eqb (name invocation) "record_fact" then
    let id :=
      js_String (Number_toString env)
        (nullish (get_prop "fact_id" (JObj (params invocation)))
                 (JStr EmptyString)) in
    let text :=
      js_String (Number_toString env)
        (nullish (get_prop "fact_text" (JObj (params invocation)))
                 (JStr EmptyString)) in
    seen ← read (fun w => bool_decide (id ∈ processedFacts (panel w)));
    if negb (str_truthy id) || seen then mret {| success := true |}
    else
      set_processedFacts (fun facts => {[ id ]} ∪ facts);;
      emit (CallOnWidgetAction
              {| factId := id;
                 factText := trim (collapse_whitespace false text) |});;
      mret {| success := true |}
  else mret {| success := false |}.

Definition onResponseEnd : Proc unit := emit CallOnResponseEnd.

Definition onResponseStart : Proc unit :=
  setErrorState
    {| upd_script := None; upd_session := None;
       upd_integration := Some None; upd_retryable := Some false |}.

Definition onThreadChange : Proc unit := set_processedFacts (fun _ => ∅).

Definition onError : Proc unit := emit (ConsoleError "ChatKit error").

(** *** Values derived at render *)

Definition activeError (e : ErrorState) : option string :=
  nullish_str (session e) (integration e).

Definition blockingError (e : ErrorState) : option string :=
  nullish_str (script e) (activeError e).

(** The [onRetry] property given to the error overlay:
    [blockingError && errors.retryable ? handleResetChat : null]. *)
Definition onRetry (e : ErrorState) : option (Proc unit) :=
  if opt_truthy (blockingError e) && retryable e then Some handleResetChat
  else None.

(** *** Presentation *)

(** Text of the status indicator in the header. *)
Definition statusLabel (p : PanelState) : string :=
  if negb (opt_truthy (blockingError (errors p)))
     && negb (isInitializingSession p)
  then "Online" else "Connecting".

(** Title of the loading overlay. *)
Definition loadingTitle : string := "Initializing Your Assistant".

(** [theme.color.accent.primary] of the widget options. *)
Definition accentPrimary : string := "#6366f1".

Definition component : Component :=
  {| c_initialState := initialState;
     c_mountedCleanup := mountedCleanup;
     c_scriptEffect := scriptEffect;
     c_scriptEffectCleanup := scriptEffectCleanup;
     c_handleLoaded := handleLoaded;
     c_handleError := handleError;
     c_timeoutCallback := timeoutCallback;
     c_workflowEffect := workflowEffect;
     c_getClientSecret_request := getClientSecret_request;
     c_getClientSecret_response := getClientSecret_response;
     c_onClientTool := onClientTool;
     c_onResponseEnd := onResponseEnd;
     c_onResponseStart := onResponseStart;
     c_onThreadChange := onThreadChange;
     c_onError := onError;
     c_onRetry := onRetry |}.
End Panel.
End Part_002.

(** ** The mounted panel as a transition system *)

(** What can happen to a mounted panel, one event per run-to-completion
    turn of the UI thread. *)
Inductive Event : Type :=
| EvDefineElement
    (** the widget script registers the [openai-chatkit] element *)
| EvScriptLoaded
    (** window event [chatkit-script-loaded] *)
| EvScriptError (detail : JValue)
    (** window event [chatkit-script-error] with its [detail] *)
| EvTimeout
    (** the armed timer fires *)
| EvGetClientSecret (currentSecret : option string)
    (** the widget calls [getClientSecret] *)
| EvFetchSettled (currentSecret : option string) (net : FetchOutcome)
    (** the request of a suspended [getClientSecret] call settles *)
| EvClientTool (invocation : Invocation)
| EvResponseEnd
| EvResponseStart
| EvThreadChange
| EvError
| EvRetry
    (** the user activates the retry affordance of the error overlay *)
| EvUnmount.

(** Removes one occurrence of a suspended call. *)
Fixpoint remove_call (cs : option string) (l : list (option string))
  : list (option string) :=
  match l with
  | [] => []
  | x :: rest => if decide (x = cs) then rest else x :: remove_call cs rest
  end.

Definition set_chatkitDefined (b : bool) (w : World) : World :=
  {| panel := panel w; chatkitDefined := b; listening := listening w;
     timeoutId := timeoutId w; pendingCalls := pendingCalls w |}.

Definition set_pendingCalls (l : list (option string)) (w : World) : World :=
  {| panel := panel w; chatkitDefined := chatkitDefined w;
     listening := listening w; timeoutId := timeoutId w; pendingCalls := l |}.

Section Transitions.
Context (C : Component).

(** Runs a handler after what already happened in the turn; a thrown
    value goes to the caller of the handler and is dropped here. *)
Definition exec {A : Type} (p : Proc A) (st : World * list Effect)
  : World * list Effect :=
  match p st.1 with
  | (_, w, l) => (w, st.2 ++ l)
  end.

(** After a turn React renders again; when the render sees a
    [scriptStatus] other than the one the script effect last ran with,
    the effect is cleaned up and run again, which may itself change the
    status.  Two rounds always reach a stable status (see
    [rerender_spec] below). *)
Fixpoint rerender (rounds : nat) (rendered : ScriptStatus)
    (st : World * list Effect) : World * list Effect :=
  match rounds with
  | O => st
  | S rounds' =>
      if isMountedRef (panel st.1)
         && negb (ScriptStatus_eqb (scriptStatus (panel st.1)) rendered)
      then
        rerender rounds' (scriptStatus (panel st.1))
          (exec (c_scriptEffect C) (exec (c_scriptEffectCleanup C) st))
      else st
  end.

(** First render and the effects that follow it, in source order.  The
    list holds what the effects emit (the renders' own debug line is not
    recorded, see [Effect]). *)
Definition mount (defined : bool) : World * list Effect :=
  let w0 :=
    {| panel := c_initialState C defined; chatkitDefined := defined;
       listening := false; timeoutId := None; pendingCalls := [] |} in
  rerender 2 (scriptStatus (panel w0))
    (exec (c_workflowEffect C) (exec (c_scriptEffect C) (w0, []))).

(** The handler an event runs. *)
Definition handle (ev : Event) (w : World) : World * list Effect :=
  match ev with
  | EvDefineElement => (set_chatkitDefined true w, [])
  | EvScriptLoaded => exec (c_handleLoaded C) (w, [])
  | EvScriptError detail => exec (c_handleError C detail) (w, [])
  | EvTimeout =>
      exec (c_timeoutCallback C) (exec (set_timeoutId None) (w, []))
  | EvGetClientSecret cs =>
      match c_getClientSecret_request C cs w with
      | (Normal _, w1, l) => (set_pendingCalls (cs :: pendingCalls w1) w1, l)
      | (Abrupt _, w1, l) => (w1, l)
      end
  | EvFetchSettled cs net =>
      exec (c_getClientSecret_response C cs net)
        (set_pendingCalls (remove_call cs (pendingCalls w)) w, [])
  | EvClientTool invocation => exec (c_onClientTool C invocation) (w, [])
  | EvResponseEnd => exec (c_onResponseEnd C) (w, [])
  | EvResponseStart => exec (c_onResponseStart C) (w, [])
  | EvThreadChange => exec (c_onThreadChange C) (w, [])
  | EvError => exec (c_onError C) (w, [])
  | EvRetry =>
      match c_onRetry C (errors (panel w)) with
      | Some retry => exec retry (w, [])
      | None => (w, [])
      end
  | EvUnmount =>
      exec (c_scriptEffectCleanup C) (exec (c_mountedCleanup C) (w, []))
  end.

(** When an event can happen: window events need the listeners, the
    timer must be armed, a settlement needs a suspended call, the retry
    affordance exists only when [onRetry] is not [null], and a panel
    unmounts once. *)
Definition enabled (ev : Event) (w : World) : bool :=
  match ev with
  | EvScriptLoaded | EvScriptError _ => listening w
  | EvTimeout => bool_decide (is_Some (timeoutId w))
  | EvFetchSettled cs _ => bool_decide (cs ∈ pendingCalls w)
  | EvRetry =>
      isMountedRef (panel w)
      && bool_decide (is_Some (c_onRetry C (errors (panel w))))
  | EvUnmount => isMountedRef (panel w)
  | _ => true
  end.

(** One turn: the handler, then the renders it causes. *)
Definition step (ev : Event) (w : World) : World * list Effect :=
  rerender 2 (scriptStatus (panel w)) (handle ev w).

(** A sequence of turns, with everything emitted on the way. *)
Fixpoint run (evs : list Event) (w : World) : World * list Effect :=
  match evs with
  | [] => (w, [])
  | ev :: rest =>
      match step ev w with
      | (w1, l1) =>
          match run rest w1 with
          | (w2, l2) => (w2, l1 ++ l2)
          end
      end
  end.

Inductive reachable : World -> Prop :=
| reachable_mount (defined : bool) : reachable (mount defined).1
| reachable_step (ev : Event) (w : World) :
    reachable w -> enabled ev w = true -> reachable (step ev w).1.
End Transitions.

(** ** A concrete runtime for examples

    The properties below hold for every [Env].  To evaluate the panel on
    concrete response bodies, [JSON_read] reads the fragment of JSON whose
    numbers are integers and whose strings have no [\u] escapes, the way
    [JSON.parse] does on that fragment: a later duplicate key overwrites
    the value of the earlier one. *)

Definition dquote : ascii := ascii_of_nat 34.
Definition backslash : ascii := ascii_of_nat 92.

(** A string between double quotes, to write JSON text. *)
Definition quoted (s : string) : string :=
  String dquote s +:+ String dquote EmptyString.

Definition is_json_space (c : ascii) : bool :=
  let n := nat_of_ascii c in
  (n =? 32)%nat || (n =? 9)%nat || (n =? 10)%nat || (n =? 13)%nat.

Fixpoint skip_space (s : string) : string :=
  match s with
  | EmptyString => EmptyString
  | String c rest => if is_json_space c then skip_space rest else s
  end.

(** Characters of a string literal after its opening quote, up to the
    closing quote; the text after it is returned too. *)
Fixpoint read_string (s : string) : option (string * string) :=
  match s with
  | EmptyString => None
  | String c rest =>
      if Ascii.eqb c dquote then Some (EmptyString, rest)
      else if Ascii.eqb c backslash then
        match rest with
        | String e rest' =>
            let unescaped :=
              if Ascii.eqb e dquote then Some dquote
              else if Ascii.eqb e backslash then Some backslash
              else if Ascii.eqb e "/" then Some "/"%char
              else if Ascii.eqb e "n" then Some (ascii_of_nat 10)
              else if Ascii.eqb e "t" then Some (ascii_of_nat 9)
              else if Ascii.eqb e "r" then Some (ascii_of_nat 13)
              else if Ascii.eqb e "b" then Some (ascii_of_nat 8)
              else if Ascii.eqb e "f" then Some (ascii_of_nat 12)
              else None in
            match unescaped, read_string rest' with
            | Some u, Some (str, after) => Some (String u str, after)
            | _, _ => None
            end
        | EmptyString => None
        end
      else if (nat_of_ascii c <? 32)%nat then None
      else
        match read_string rest with
        | Some (str, after) => Some (String c str, after)
        | None => None
        end
  end.

Definition digit_value (c : ascii) : option Z :=
  let n := nat_of_ascii c in
  if (48 <=? n)%nat && (n <=? 57)%nat then Some (Z.of_nat n - 48) else None.

(** Further digits of a number whose value so far is [acc]. *)
Fixpoint read_digits (acc : Z) (s : string) : Z * string :=
  match s with
  | EmptyString => (acc, EmptyString)
  | String c rest =>
      match digit_value c with
      | Some d => read_digits (10 * acc + d) rest
      | None => (acc, s)
      end
  end.

(** An integer without sign: one digit at least, no leading zero, and no
    fraction or exponent after it. *)
Definition read_natural (s : string) : option (Z * string) :=
  match s with
  | String c rest =>
      match digit_value c with
      | Some d =>
          let '(n, after) :=
            if d =? 0 then (0, rest) else read_digits d rest in
          match after with
          | String c' _ =>
              if is_Some_dec (digit_value c') then None
              else if Ascii.eqb c' "." || Ascii.eqb c' "e" || Ascii.eqb c' "E"
              then None
              else Some (n, after)
          | EmptyString => Some (n, after)
          end
      | None => None
      end
  | EmptyString => None
  end.

(** [fields] with [key] bound to [v]: in place when the key is there. *)
Fixpoint set_field (key : string) (v : JValue)
    (fields : list (string * JValue)) : list (string * JValue) :=
  match fields with
  | [] => [(key, v)]
  | (k, old) :: rest =>
      if String.eqb k key then (k, v) :: rest
      else (k, old) :: set_field key v rest
  end.

Definition strip_prefix (p s : string) : option string :=
  if String.prefix p s
  then Some (String.substring (String.length p)
               (String.length s - String.length p) s)
  else None.

(** [read_value] reads one value, [read_members] the members of an object
    after its opening brace or a comma, [read_items] the items of an array
    likewise.  [fuel] bounds the number of nested calls. *)
Fixpoint read_value (fuel : nat) (s : string) {struct fuel}
  : option (JValue * string) :=
  match fuel with
  | O => None
  | S fuel' =>
      match skip_space s with
      | EmptyString => None
      | String c rest =>
          if Ascii.eqb c "{" then
            match skip_space rest with
            | String c' rest' =>
                if Ascii.eqb c' "}" then Some (JObj [], rest')
                else read_members fuel' [] rest
            | EmptyString => None
            end
          else if Ascii.eqb c "[" then
            match skip_space rest with
            | String c' rest' =>
                if Ascii.eqb c' "]" then Some (JArr [], rest')
                else read_items fuel' [] rest
            | EmptyString => None
            end
          else if Ascii.eqb c dquote then
            match read_string rest with
            | Some (str, after) => Some (JStr str, after)
            | None => None
            end
          else if Ascii.eqb c "-" then
            match read_natural rest with
            | Some (n, after) => Some (JNum (- n), after)
            | None => None
            end
          else
            match read_natural (String c rest) with
            | Some (n, after) => Some (JNum n, after)
            | None =>
                match strip_prefix "true" (String c rest) with
                | Some after => Some (JBool true, after)
                | None =>
                    match strip_prefix "false" (String c rest) with
                    | Some after => Some (JBool false, after)
                    | None =>
                        match strip_prefix "null" (String c rest) with
                        | Some after => Some (JNull, after)
                        | None => None
                        end
                    end
                end
            end
      end
  end
with read_members (fuel : nat) (acc : list (string * JValue)) (s : string)
    {struct fuel} : option (JValue * string) :=
  match fuel with
  | O => None
  | S fuel' =>
      match skip_space s with
      | String q rest =>
          if Ascii.eqb q dquote then
            match read_string rest with
            | Some (key, after_key) =>
                match skip_space after_key with
                | String colon after_colon =>
                    if Ascii.eqb colon ":" then
                      match read_value fuel' after_colon with
                      | Some (v, after_value) =>
                          match skip_space after_value with
                          | String sep after_sep =>
                              if Ascii.eqb sep "," then
                                read_members fuel' (set_field key v acc) after_sep
                              else if Ascii.eqb sep "}" then
                                Some (JObj (set_field key v acc), after_sep)
                              else None
                          | EmptyString => None
                          end
                      | None => None
                      end
                    else None
                | EmptyString => None
                end
            | None => None
            end
          else None
      | EmptyString => None
      end
  end
with read_items (fuel : nat) (acc : list JValue) (s : string) {struct fuel}
  : option (JValue * string) :=
  match fuel with
  | O => None
  | S fuel' =>
      match read_value fuel' s with
      | Some (v, after_value) =>
          match skip_space after_value with
          | String sep after_sep =>
              if Ascii.eqb sep "," then read_items fuel' (acc ++ [v]) after_sep
              else if Ascii.eqb sep "]" then Some (JArr (acc ++ [v]), after_sep)
              else None
          | EmptyString => None
          end
      | None => None
      end
  end.

(** The whole text must be one value.  Of two nested calls one at least
    consumes a character, so twice the length of the text is fuel enough. *)
Definition JSON_read (text : string) : option JValue :=
  match read_value (2 * String.length text + 2) text with
  | Some (v, after) =>
      match skip_space after with
      | EmptyString => Some v
      | String _ _ => None
      end
  | None => None
  end.

(** [String(n)] for an integer of magnitude below 10^21. *)
Definition decimal (n : Z) : string := pretty n.

Definition example_env (workflow : string) : Env :=
  {| WORKFLOW_ID := workflow;
     CREATE_SESSION_ENDPOINT := "/api/create-session";
     isBrowser := true;
     isDev := true;
     JSON_parse := JSON_read;
     Number_toString := decimal |}.

(** ** Vocabulary of the specification *)

(** The [data] of the bootstrap call for a response body [raw]: the parsed
    body when there is one and it parses, an empty object otherwise. *)
Definition parsedBody (env : Env) (raw : string) : JValue :=
  if str_truthy raw then default (JObj []) (JSON_parse env raw) else JObj [].

(** [data?.client_secret]. *)
Definition clientSecretOf (data : JValue) : JValue :=
  match data with
  | JUndefined | JNull => JUndefined
  | _ => get_prop "client_secret" data
  end.

(** The string found by following [path] from the payload, if the value
    there is a string. *)
Definition string_at (path : list string) (payload : JValue) : option string :=
  as_string (foldl (fun v key => get_prop key v) payload path).

(** The extraction strategies of the specification, in its order: a
    top-level [error] string, the [message] string of an [error] object, a
    [details] string, a [details.error] string, a [details.error.message]
    string, a top-level [message] string. *)
Definition error_strategies : list (JValue -> option string) :=
  [ string_at ["error"];
    string_at ["error"; "message"];
    string_at ["details"];
    string_at ["details"; "error"];
    string_at ["details"; "error"; "message"];
    string_at ["message"] ].

(** The first successful match of a list of strategies. *)
Fixpoint first_match (strategies : list (JValue -> option string))
    (payload : JValue) : option string :=
  match strategies with
  | [] => None
  | strategy :: others =>
      match strategy payload with
      | Some s => Some s
      | None => first_match others payload
      end
  end.

(** The message of the specification for a failed bootstrap call. *)
Definition spec_error_message (payload : JValue) (statusText : string)
  : string :=
  default statusText (first_match error_strategies payload).

Definition missingWorkflowMessage : string :=
  "Set NEXT_PUBLIC_CHATKIT_WORKFLOW_ID in your .env.local file.".

Definition missingSecretMessage : string :=
  "Missing client secret in response".

(** The response bodies the specification names. *)
Definition quota_exceeded_text : string :=
  "{" +:+ quoted "error" +:+ ":{" +:+ quoted "message" +:+ ":"
      +:+ quoted "quota exceeded" +:+ "}}".

Definition quota_exceeded_json : JValue :=
  JObj [("error", JObj [("message", JStr "quota exceeded")])].

Definition bad_workflow_text : string :=
  "{" +:+ quoted "details" +:+ ":{" +:+ quoted "error" +:+ ":"
      +:+ quoted "bad workflow" +:+ "}}".

Definition bad_workflow_json : JValue :=
  JObj [("details", JObj [("error", JStr "bad workflow")])].

Definition sk_abc_text : string :=
  "{" +:+ quoted "client_secret" +:+ ":" +:+ quoted "sk_abc" +:+ "}".

Definition sk_abc_json : JValue := JObj [("client_secret", JStr "sk_abc")].

Definition empty_secret_text : string :=
  "{" +:+ quoted "client_secret" +:+ ":" +:+ quoted EmptyString +:+ "}".

Definition is_fetch (e : Effect) : bool :=
  match e with
  | Fetch _ _ _ => true
  | _ => false
  end.

(** The relays of fact [id] to the host among emitted effects. *)
Definition is_relay_of (id : string) (e : Effect) : bool :=
  match e with
  | CallOnWidgetAction action => String.eqb (factId action) id
  | _ => false
  end.

Fixpoint relays (id : string) (l : list Effect) : nat :=
  match l with
  | [] => O
  | e :: rest => ((if is_relay_of id e then 1 else 0) + relays id rest)%nat
  end.

(** The fact identifier a [record_fact] invocation carries. *)
Definition factIdOf (env : Env) (invocation : Invocation) : string :=
  js_String (Number_toString env)
    (nullish (get_prop "fact_id" (JObj (params invocation)))
             (JStr EmptyString)).

(** Events that end the current thread's deduplication: a thread change,
    and the reset of the retry affordance. *)
Definition ends_thread (ev : Event) : bool :=
  match ev with
  | EvThreadChange | EvRetry => true
  | _ => false
  end.

(** ** Invariants and frames *)

(** The world after the renders that follow a handler: what [rerender]
    computes for this panel (see [rerender_spec]). *)
Definition after_render (env : Env) (rendered : ScriptStatus) (w : World)
  : World :=
  if isMountedRef (panel w)
     && negb (ScriptStatus_eqb (scriptStatus (panel w)) rendered)
     && isBrowser env
  then
    if chatkitDefined w then
      {| panel :=
           {| processedFacts := processedFacts (panel w);
              errors :=
                {| script := None; session := session (errors (panel w));
                   integration := integration (errors (panel w));
                   retryable := retryable (errors (panel w)) |};
              isInitializingSession := isInitializingSession (panel w);
              isMountedRef := true;
              scriptStatus := ready;
              widgetInstanceKey := widgetInstanceKey (panel w) |};
         chatkitDefined := true; listening := true; timeoutId := None;
         pendingCalls := pendingCalls w |}
    else
      {| panel := panel w; chatkitDefined := false; listening := true;
         timeoutId :=
           if ScriptStatus_eqb (scriptStatus (panel w)) pending then Some 5000
           else None;
         pendingCalls := pendingCalls w |}
  else w.

(** What the handlers that do not deal with the script leave alone. *)
Definition frame (w w' : World) : Prop :=
  scriptStatus (panel w') = scriptStatus (panel w)
  /\ isMountedRef (panel w') = isMountedRef (panel w)
  /\ chatkitDefined w' = chatkitDefined w
  /\ listening w' = listening w
  /\ timeoutId w' = timeoutId w
  /\ pendingCalls w' = pendingCalls w
  /\ script (errors (panel w')) = script (errors (panel w))
  /\ (retryable (errors (panel w')) = retryable (errors (panel w))
      \/ retryable (errors (panel w')) = false).

(** In every reachable world the retry flag is off, and an armed timer is
    the five-second timer of a mounted panel whose script is pending. *)
Definition Inv (env : Env) (w : World) : Prop :=
  retryable (errors (panel w)) = false
  /\ (forall d, timeoutId w = Some d ->
        d = 5000
        /\ scriptStatus (panel w) = pending
        /\ isMountedRef (panel w) = true
        /\ isBrowser env = true).

(** What holds between a handler and the render that follows it: the
    timer may still be armed although the status just left [pending]. *)
Definition PreInv (env : Env) (rendered : ScriptStatus) (w : World) : Prop :=
  retryable (errors (panel w)) = false
  /\ (forall d, timeoutId w = Some d ->
        d = 5000
        /\ (scriptStatus (panel w) = pending
            \/ ScriptStatus_eqb (scriptStatus (panel w)) rendered = false)
        /\ isMountedRef (panel w) = true
        /\ isBrowser env = true).

(** With an unconfigured workflow the session error is the configuration
    message from the mount on, and no call is ever suspended. *)
Definition InvU (w : World) : Prop :=
  session (errors (panel w)) = Some missingWorkflowMessage
  /\ pendingCalls w = [].

(** ** More vocabulary: requests, display and text *)

(** The requests among emitted effects, in order. *)
Fixpoint only_fetches (l : list Effect) : list Effect :=
  match l with
  | [] => []
  | e :: rest => if is_fetch e then e :: only_fetches rest else only_fetches rest
  end.

(** The calls of [getClientSecret] among events. *)
Fixpoint count_calls (evs : list Event) : nat :=
  match evs with
  | [] => O
  | EvGetClientSecret _ :: rest => S (count_calls rest)
  | _ :: rest => count_calls rest
  end.

(** The theme requests relayed to the host among emitted effects. *)
Fixpoint theme_requests (l : list Effect) : list ColorScheme :=
  match l with
  | [] => []
  | CallOnThemeRequest scheme :: rest => scheme :: theme_requests rest
  | _ :: rest => theme_requests rest
  end.

(** The string a colour scheme is written as in tool parameters. *)
Definition scheme_name (scheme : ColorScheme) : string :=
  match scheme with
  | light => "light"
  | dark => "dark"
  end.

(** The message a thrown value leaves in the [catch] block of the
    bootstrap call. *)
Definition thrown_message (e : Thrown) : string :=
  match e with
  | ErrorObject message => message
  | NotAnError _ => "Unable to start ChatKit session."
  end.

(** What the render shows, second variant: the widget is dimmed and inert
    when [blockingError || isInitializingSession], and the loading overlay
    is drawn when [isInitializingSession && !blockingError]. *)
Definition widgetHidden (p : PanelState) : bool :=
  opt_truthy (Part_002.blockingError (errors p)) || isInitializingSession p.

Definition loadingOverlayShown (p : PanelState) : bool :=
  isInitializingSession p && negb (opt_truthy (Part_002.blockingError (errors p))).

(** A text without leading or trailing whitespace whose only whitespace
    is single spaces: every whitespace code unit is a space and is
    followed by a code unit that is not whitespace. *)
Fixpoint single_spaced (s : string) : bool :=
  match s with
  | EmptyString => true
  | String c rest =>
      if is_whitespace c then
        Ascii.eqb c " "
        && match rest with
           | String c' _ => negb (is_whitespace c')
           | EmptyString => false
           end
        && single_spaced rest
      else single_spaced rest
  end.

Definition starts_with_whitespace (s : string) : bool :=
  match s with
  | String c _ => is_whitespace c
  | EmptyString => false
  end.

(** The code units of a text that are not whitespace, in order. *)
Fixpoint without_whitespace (s : string) : string :=
  match s with
  | EmptyString => EmptyString
  | String c rest =>
      if is_whitespace c then without_whitespace rest
      else String c (without_whitespace rest)
  end.

(** No two whitespace code units in a row, each of them a space. *)
Fixpoint no_runs (s : string) : bool :=
  match s with
  | EmptyString => true
  | String c rest =>
      (if is_whitespace c
       then Ascii.eqb c " " && negb (starts_with_whitespace rest)
       else true)
      && no_runs rest
  end.

(** The text a [record_fact] invocation carries, before it is tidied. *)
Definition factTextOf (env : Env) (invocation : Invocation) : string :=
  js_String (Number_toString env)
    (nullish (get_prop "fact_text" (JObj (params invocation)))
             (JStr EmptyString)).

(** Further facts that hold in every reachable world: no integration error
    is ever recorded, the widget is never remounted, the script error is
    set exactly in the error status and carries its prefix, the window
    listeners belong to a mounted panel in a browser, and the empty
    identifier is never processed. *)
Definition Inv2 (env : Env) (w : World) : Prop :=
  integration (errors (panel w)) = None
  /\ widgetInstanceKey (panel w) = 0
  /\ match script (errors (panel w)) with
     | Some m =>
         scriptStatus (panel w) = error /\ String.prefix "Error: " m = true
     | None => scriptStatus (panel w) <> error
     end
  /\ (listening w = true ->
      isMountedRef (panel w) = true /\ isBrowser env = true)
  /\ EmptyString ∉ processedFacts (panel w).



(** * Properties *)

(** Unfolds the process combinators down to pairs. *)
Ltac unfold_proc :=
  unfold completion, world_after, effects_of, exec,
    mbind, Proc_bind, mret, Proc_ret, throw, emit, read, update, when,
    try_catch_finally, await,
    setErrors, setIsInitializingSession, setScriptStatus,
    setWidgetInstanceKey, set_isMountedRef, set_processedFacts,
    set_listening, set_timeoutId, with_panel in *.

(** Case analysis on the tests a handler makes. *)
Ltac split_tests :=
  cbn;
  repeat (first
    [ match goal with
      | H : ?x = _ |- context [?x] => rewrite H
      end
    | match goal with
      | |- context [truthy ?v] => destruct (truthy v) eqn:?
      | |- context [isMountedRef ?p] => destruct (isMountedRef p) eqn:?
      | |- context [opt_truthy ?p] => destruct (opt_truthy p) eqn:?
      | |- context [isDev ?e] => destruct (isDev e) eqn:?
      | |- context [isBrowser ?e] => destruct (isBrowser e) eqn:?
      | |- context [chatkitDefined ?w] => destruct (chatkitDefined w) eqn:?
      end ]; cbn).

(** Membership in an explicit list. *)
Ltac in_list :=
  repeat first [apply list_elem_of_here | apply list_elem_of_further].

(** ** Session bootstrap *)

Lemma response_completion env cs r w :
  completion (Part_002.getClientSecret_response env cs (Responded r) w) =
  if ok r then
    if truthy (clientSecretOf (parsedBody env (body r)))
    then Normal (clientSecretOf (parsedBody env (body r)))
    else Abrupt (ErrorObject missingSecretMessage)
  else
    Abrupt (ErrorObject
      (Part_002.extractErrorDetail (parsedBody env (body r)) (statusText r))).
Proof.
  unfold Part_002.getClientSecret_response, Part_002.setErrorState,
    parsedBody, clientSecretOf.
  unfold_proc. cbn.
  destruct (isDev env), (str_truthy (body r)); cbn.
  all: try destruct (JSON_parse env (body r)) as [data|]; cbn.
  all: destruct (ok r); cbn.
  all: split_tests; reflexivity.
Qed.

(** With a configured workflow the synchronous part of the call completes
    normally. *)
Lemma request_configured env cs w :
  Part_002.isWorkflowConfigured env = true ->
  exists w1 l1, Part_002.getClientSecret_request env cs w = (Normal tt, w1, l1).
Proof.
  intros Hc.
  unfold Part_002.getClientSecret_request, Part_002.setErrorState.
  rewrite Hc. unfold_proc. cbn.
  split_tests; do 2 eexists; reflexivity.
Qed.

(** So the whole call completes the way its continuation does. *)
Lemma configured_call_completion env cs net w :
  Part_002.isWorkflowConfigured env = true ->
  exists w1,
    completion (Part_002.getClientSecret env cs net w) =
    completion (Part_002.getClientSecret_response env cs net w1).
Proof.
  intros Hc.
  destruct (request_configured env cs w Hc) as (w1 & l1 & Hreq).
  exists w1. unfold Part_002.getClientSecret, completion, mbind, Proc_bind.
  rewrite Hreq.
  destruct (Part_002.getClientSecret_response env cs net w1) as [[c w2] l2].
  reflexivity.
Qed.

(** The guards before a nested read only exclude values on which the read
    finds no string anyway. *)
Lemma guarded_read key v :
  (if truthy v && typeof_object v && has_prop key v
   then as_string (get_prop key v) else None) =
  as_string (get_prop key v).
Proof.
  destruct v as [| |b|n|s|items|fields]; cbn;
    rewrite ?andb_false_r; try reflexivity.
  destruct (lookup_field key fields); reflexivity.
Qed.

Lemma extractErrorDetail_first_match payload fallback :
  Part_002.extractErrorDetail payload fallback =
  spec_error_message payload fallback.
Proof.
  unfold Part_002.extractErrorDetail, spec_error_message, error_strategies,
    first_match, string_at.
  destruct payload as [| |b|n|s|items|fields]; cbn; try reflexivity.
  - destruct b; reflexivity.
  - destruct (n =? 0); reflexivity.
  - destruct s; reflexivity.
  - rewrite guarded_read.
    set (err := default JUndefined (lookup_field "error" fields)).
    set (det := default JUndefined (lookup_field "details" fields)).
    assert (Hdet :
      (if truthy det && typeof_object det && has_prop "error" det
       then match as_string (get_prop "error" det) with
            | Some s => Some s
            | None =>
                if truthy (get_prop "error" det)
                   && typeof_object (get_prop "error" det)
                   && has_prop "message" (get_prop "error" det)
                then as_string (get_prop "message" (get_prop "error" det))
                else None
            end
       else None) =
      match as_string (get_prop "error" det) with
      | Some s => Some s
      | None => as_string (get_prop "message" (get_prop "error" det))
      end).
    { rewrite guarded_read.
      destruct det as [| |b|n|s|items|fs]; cbn;
        rewrite ?andb_false_r; try reflexivity.
      destruct (lookup_field "error" fs); reflexivity. }
    rewrite Hdet.
    destruct (as_string err); [reflexivity|].
    destruct (as_string (get_prop "message" err)); [reflexivity|].
    destruct (as_string det); [reflexivity|].
    destruct (as_string (get_prop "error" det)); [reflexivity|].
    destruct (as_string (get_prop "message" (get_prop "error" det)));
      [reflexivity|].
    destruct (as_string (default JUndefined (lookup_field "message" fields)));
      reflexivity.
Qed.

(** Unfolds the bootstrap call of the second variant. *)
Ltac unfold_call :=
  unfold Part_002.getClientSecret, Part_002.getClientSecret_request,
    Part_002.getClientSecret_response, Part_002.setErrorState in *;
  unfold_proc.

(** C1. For a non-2xx response the bootstrap call fails with the message
    found by the ordered extraction strategies of the specification on the
    parsed body (a top-level [error] string, an [error] object's [message],
    a [details] string, a [details.error] string, a
    [details.error.message] string, a top-level [message] string), or else
    with the HTTP status text.  The two bodies the specification names
    yield "quota exceeded" and "bad workflow". *)
Theorem getClientSecret_failure_message
    (env : Env) (cs : option string) (r : Response) (w : World) :
  Part_002.isWorkflowConfigured env = true ->
  ok r = false ->
  completion (Part_002.getClientSecret env cs (Responded r) w) =
    Abrupt (ErrorObject
              (spec_error_message (parsedBody env (body r)) (statusText r)))
  /\ (body r = quota_exceeded_text ->
      JSON_parse env quota_exceeded_text = Some quota_exceeded_json ->
      completion (Part_002.getClientSecret env cs (Responded r) w) =
        Abrupt (ErrorObject "quota exceeded"))
  /\ (body r = bad_workflow_text ->
      JSON_parse env bad_workflow_text = Some bad_workflow_json ->
      completion (Part_002.getClientSecret env cs (Responded r) w) =
        Abrupt (ErrorObject "bad workflow")).
Proof.
  intros Hc Hok.
  destruct (configured_call_completion env cs (Responded r) w Hc) as [w1 Hw1].
  assert (Hmsg :
    completion (Part_002.getClientSecret env cs (Responded r) w) =
    Abrupt (ErrorObject
              (spec_error_message (parsedBody env (body r)) (statusText r)))).
  { rewrite Hw1, response_completion, Hok.
    by rewrite extractErrorDetail_first_match. }
  split; [exact Hmsg|].
  split; intros Hbody Hparse; rewrite Hmsg; unfold parsedBody;
    rewrite Hbody, Hparse; reflexivity.
Qed.

Lemma getClientSecret_failure_message_witness :
  let w := (mount (Part_002.component (example_env "wf_123")) false).1 in
  completion
    (Part_002.getClientSecret (example_env "wf_123") None
       (Responded {| status := 429; statusText := "Too Many Requests";
                     body := quota_exceeded_text |}) w) =
    Abrupt (ErrorObject "quota exceeded")
  /\ completion
       (Part_002.getClientSecret (example_env "wf_123") None
          (Responded {| status := 400; statusText := "Bad Request";
                        body := bad_workflow_text |}) w) =
       Abrupt (ErrorObject "bad workflow").
Proof.
  split.
  - apply (getClientSecret_failure_message (example_env "wf_123") None
             {| status := 429; statusText := "Too Many Requests";
                body := quota_exceeded_text |}); reflexivity.
  - apply (getClientSecret_failure_message (example_env "wf_123") None
             {| status := 400; statusText := "Bad Request";
                body := bad_workflow_text |}); reflexivity.
Defined.

(** C2, as amended.  For a 2xx response whose parsed body has a
    [client_secret] field holding a non-empty string, the bootstrap call
    resolves to that string; the body with "sk_abc" resolves to "sk_abc". *)
Theorem getClientSecret_resolves_secret
    (env : Env) (cs : option string) (r : Response) (w : World) :
  Part_002.isWorkflowConfigured env = true ->
  ok r = true ->
  (forall (data : JValue) (secret : string),
     body r <> EmptyString ->
     JSON_parse env (body r) = Some data ->
     get_prop "client_secret" data = JStr secret ->
     secret <> EmptyString ->
     completion (Part_002.getClientSecret env cs (Responded r) w) =
       Normal (JStr secret))
  /\ (body r = sk_abc_text ->
      JSON_parse env sk_abc_text = Some sk_abc_json ->
      completion (Part_002.getClientSecret env cs (Responded r) w) =
        Normal (JStr "sk_abc")).
Proof.
  intros Hc Hok.
  destruct (configured_call_completion env cs (Responded r) w Hc) as [w1 Hw1].
  assert (Hgen : forall data secret,
    body r <> EmptyString ->
    JSON_parse env (body r) = Some data ->
    get_prop "client_secret" data = JStr secret ->
    secret <> EmptyString ->
    completion (Part_002.getClientSecret env cs (Responded r) w) =
      Normal (JStr secret)).
  { intros data secret Hbody Hparse Hfield Hsecret.
    rewrite Hw1, response_completion, Hok. unfold parsedBody.
    destruct (body r) as [|c rest]; [done|]. cbn [str_truthy].
    rewrite Hparse. cbn -[clientSecretOf truthy].
    assert (Hcs : clientSecretOf data = JStr secret).
    { destruct data; cbn in *; congruence. }
    rewrite Hcs. destruct secret; [done|]. reflexivity. }
  split; [exact Hgen|].
  intros Hbody Hparse.
  apply (Hgen sk_abc_json "sk_abc"); rewrite ?Hbody; done.
Qed.

Lemma getClientSecret_resolves_secret_witness :
  completion
    (Part_002.getClientSecret (example_env "wf_123") None
       (Responded {| status := 200; statusText := "OK"; body := sk_abc_text |})
       (mount (Part_002.component (example_env "wf_123")) false).1) =
    Normal (JStr "sk_abc").
Proof.
  apply (getClientSecret_resolves_secret (example_env "wf_123") None
           {| status := 200; statusText := "OK"; body := sk_abc_text |});
    reflexivity.
Defined.

(** C2, as stated, fails: a 2xx response whose body has a [client_secret]
    field holding the empty string is rejected as lacking the secret. *)
Lemma getClientSecret_empty_secret_rejected :
  let env := example_env "wf_123" in
  let r := {| status := 200; statusText := "OK"; body := empty_secret_text |} in
  Part_002.isWorkflowConfigured env = true
  /\ ok r = true
  /\ JSON_parse env (body r) = Some (JObj [("client_secret", JStr EmptyString)])
  /\ completion
       (Part_002.getClientSecret env None (Responded r)
          (mount (Part_002.component env) false).1) =
     Abrupt (ErrorObject "Missing client secret in response")
  /\ completion
       (Part_002.getClientSecret env None (Responded r)
          (mount (Part_002.component env) false).1) <>
     Normal (JStr EmptyString).
Proof. repeat split; first [reflexivity | discriminate]. Qed.

(** C3. For a 2xx response whose body is empty, is an empty JSON object or
    fails to parse, the bootstrap call fails with the fixed
    missing-credential message: the payload degrades to an empty object, a
    parse failure is logged, and the failure takes the ordinary path that
    records the session error of a mounted panel. *)
Theorem getClientSecret_missing_secret
    (env : Env) (cs : option string) (r : Response) (w : World) :
  Part_002.isWorkflowConfigured env = true ->
  ok r = true ->
  body r = EmptyString
  \/ JSON_parse env (body r) = Some (JObj [])
  \/ JSON_parse env (body r) = None ->
  completion (Part_002.getClientSecret env cs (Responded r) w) =
    Abrupt (ErrorObject "Missing client secret in response")
  /\ parsedBody env (body r) = JObj []
  /\ (body r <> EmptyString -> JSON_parse env (body r) = None ->
      ConsoleError "Failed to parse create-session response"
        ∈ effects_of (Part_002.getClientSecret env cs (Responded r) w))
  /\ (isMountedRef (panel w) = true ->
      session (errors (panel (world_after
        (Part_002.getClientSecret env cs (Responded r) w)))) =
      Some "Missing client secret in response").
Proof.
  intros Hc Hok Hcases.
  assert (Hdata : parsedBody env (body r) = JObj []).
  { unfold parsedBody. destruct (str_truthy (body r)) eqn:Hraw; [|done].
    destruct Hcases as [Hb | [Hp | Hp]].
    - rewrite Hb in Hraw. discriminate.
    - by rewrite Hp.
    - by rewrite Hp. }
  split; [|split; [exact Hdata|split]].
  - destruct (configured_call_completion env cs (Responded r) w Hc) as [w1 Hw1].
    rewrite Hw1, response_completion, Hok, Hdata. reflexivity.
  - intros Hne Hfail.
    destruct (body r) as [|c rest] eqn:Hbody; [done|].
    unfold_call. split_tests; in_list.
  - intros Hm.
    unfold parsedBody in Hdata.
    unfold_call.
    destruct (str_truthy (body r)) eqn:Hraw.
    + destruct (JSON_parse env (body r)) as [data|] eqn:Hparse;
        cbn in Hdata; [subst data|]; split_tests; reflexivity.
    + split_tests; reflexivity.
Qed.

Lemma getClientSecret_missing_secret_witness :
  let env := example_env "wf_123" in
  let w := (mount (Part_002.component env) false).1 in
  completion
    (Part_002.getClientSecret env None
       (Responded {| status := 200; statusText := "OK";
                     body := "<html>Bad Gateway</html>" |}) w) =
    Abrupt (ErrorObject "Missing client secret in response")
  /\ completion
       (Part_002.getClientSecret env None
          (Responded {| status := 200; statusText := "OK"; body := "{}" |}) w) =
     Abrupt (ErrorObject "Missing client secret in response")
  /\ completion
       (Part_002.getClientSecret env None
          (Responded {| status := 204; statusText := "No Content";
                        body := EmptyString |}) w) =
     Abrupt (ErrorObject "Missing client secret in response").
Proof.
  intros env w. split; [|split].
  - apply (getClientSecret_missing_secret env None
             {| status := 200; statusText := "OK";
                body := "<html>Bad Gateway</html>" |} w);
      [reflexivity|reflexivity|right; right; reflexivity].
  - apply (getClientSecret_missing_secret env None
             {| status := 200; statusText := "OK"; body := "{}" |} w);
      [reflexivity|reflexivity|right; left; reflexivity].
  - apply (getClientSecret_missing_secret env None
             {| status := 204; statusText := "No Content";
                body := EmptyString |} w);
      [reflexivity|reflexivity|left; reflexivity].
Defined.

(** Two rounds of [rerender] reach the world of [after_render], and
    further rounds change nothing. *)
Lemma rerender_spec env n rendered w l :
  rerender (Part_002.component env) (2 + n) rendered (w, l) =
  (after_render env rendered w, l).
Proof.
  destruct w as [[facts errs init mounted status key] defined lst tmr calls].
  unfold after_render.
  destruct mounted, status, rendered, (isBrowser env) eqn:Hb, defined; cbn;
    unfold Part_002.scriptEffect, Part_002.scriptEffectCleanup,
      Part_002.handleLoaded, Part_002.setErrorState; unfold_proc;
    rewrite ?Hb; cbn; rewrite ?app_nil_r; try reflexivity.
  all: destruct n; cbn; rewrite ?Hb; cbn; rewrite ?app_nil_r; try reflexivity.
Qed.

(** One turn is the handler followed by the renders described by
    [after_render]. *)
Lemma step_after_render env ev w :
  step (Part_002.component env) ev w =
  (after_render env (scriptStatus (panel w))
     (handle (Part_002.component env) ev w).1,
   (handle (Part_002.component env) ev w).2).
Proof.
  unfold step.
  destruct (handle (Part_002.component env) ev w) as [w1 l1].
  apply (rerender_spec env 0).
Qed.

(** [exec] at the start of a turn is the handler itself. *)
Lemma exec_world {A : Type} (p : Proc A) (w : World) :
  (exec p (w, [])).1 = world_after (p w).
Proof.
  unfold exec, world_after. cbn. by destruct (p w) as [[c w1] l1].
Qed.

Lemma exec_effects {A : Type} (p : Proc A) (w : World) :
  (exec p (w, [])).2 = effects_of (p w).
Proof.
  unfold exec, effects_of. cbn. by destruct (p w) as [[c w1] l1].
Qed.

(** Unfolds the handlers of the second variant, callers first. *)
Ltac unfold_handlers :=
  unfold Part_002.getClientSecret, Part_002.timeoutCallback,
    Part_002.scriptEffect in *;
  unfold Part_002.getClientSecret_request,
    Part_002.getClientSecret_response, Part_002.onClientTool,
    Part_002.onResponseEnd, Part_002.onResponseStart,
    Part_002.onThreadChange, Part_002.onError, Part_002.handleLoaded,
    Part_002.handleError, Part_002.scriptEffectCleanup,
    Part_002.workflowEffect, Part_002.mountedCleanup,
    Part_002.handleResetChat in *;
  unfold Part_002.setErrorState in *;
  unfold_proc.

(** Closes a [frame] goal on explicit worlds. *)
Ltac solve_frame :=
  unfold frame; cbn; repeat split; auto.

Lemma request_frame env cs w :
  frame w (world_after (Part_002.getClientSecret_request env cs w)).
Proof.
  unfold_handlers.
  destruct (Part_002.isWorkflowConfigured env); split_tests; solve_frame.
Qed.

Lemma response_frame env cs net w :
  frame w (world_after (Part_002.getClientSecret_response env cs net w)).
Proof.
  unfold_handlers.
  destruct net as [r|e]; cbn.
  - destruct (isDev env), (str_truthy (body r)); cbn;
      try destruct (JSON_parse env (body r)); cbn;
      destruct (ok r); split_tests; solve_frame.
  - destruct e; split_tests; solve_frame.
Qed.

Lemma onClientTool_frame env invocation w :
  frame w (world_after (Part_002.onClientTool env invocation w)).
Proof.
  unfold_handlers.
  destruct (String.eqb (name invocation) "switch_theme").
  - destruct (Part_002.requestedScheme _); split_tests; solve_frame.
  - destruct (String.eqb (name invocation) "record_fact"); cbn;
      [|solve_frame].
    destruct (negb _ || _); solve_frame.
Qed.

(** ** Invariants of the mounted panel *)

Lemma after_render_Inv env rendered w :
  PreInv env rendered w -> Inv env (after_render env rendered w).
Proof.
  destruct w as [[facts errs init mounted status key] defined lst tmr calls].
  unfold PreInv, Inv, after_render. cbn. intros [Hr Ht].
  destruct mounted, (ScriptStatus_eqb status rendered) eqn:Heq,
    (isBrowser env) eqn:Hb, defined; cbn; split; try done.
  all: try (intros d Hd; destruct (Ht d Hd) as (-> & [->|?] & ? & ?); done).
  all: destruct status; cbn; intros d Hd; by simplify_eq.
Qed.

Lemma frame_PreInv env w w' l :
  frame w w' -> Inv env w ->
  PreInv env (scriptStatus (panel w)) (set_pendingCalls l w').
Proof.
  intros (Hs & Hm & _ & _ & Ht & _ & _ & Hr) [Hr0 Ht0].
  split; cbn.
  - destruct Hr; congruence.
  - intros d Hd. rewrite Ht in Hd. destruct (Ht0 d Hd) as (-> & ? & ? & ?).
    rewrite Hs, Hm. auto.
Qed.

Lemma set_pendingCalls_same w : set_pendingCalls (pendingCalls w) w = w.
Proof. by destruct w. Qed.

Lemma onRetry_off env e :
  retryable e = false -> Part_002.onRetry env e = None.
Proof.
  intros Hr. unfold Part_002.onRetry. rewrite Hr, andb_false_r. reflexivity.
Qed.

(** Closes a timer clause from the timer clause of the invariant. *)
Ltac timer_clause Ht :=
  let d := fresh "d" in
  let Hd := fresh "Hd" in
  intros d Hd; try discriminate;
  destruct (Ht d Hd) as (-> & -> & ? & ?);
  try done; repeat split; first [done | congruence | auto].

Lemma handle_PreInv env ev w :
  Inv env w ->
  enabled (Part_002.component env) ev w = true ->
  PreInv env (scriptStatus (panel w))
    (handle (Part_002.component env) ev w).1.
Proof.
  intros HI Hen.
  destruct ev; cbn [handle Part_002.component c_handleLoaded c_handleError
    c_timeoutCallback c_getClientSecret_request c_getClientSecret_response
    c_onClientTool c_onResponseEnd c_onResponseStart c_onThreadChange
    c_onError c_onRetry c_scriptEffectCleanup c_mountedCleanup].
  - (* the element gets defined *)
    destruct HI as [Hr Ht]. split; cbn; [done|]. timer_clause Ht.
  - (* script loaded *)
    destruct HI as [Hr Ht]. unfold_handlers.
    split_tests; (split; cbn; [done|timer_clause Ht]).
  - (* script error *)
    destruct HI as [Hr Ht]. unfold_handlers.
    split_tests; (split; cbn; [done|timer_clause Ht]).
  - (* timeout *)
    destruct HI as [Hr Ht]. unfold_handlers.
    split_tests; (split; cbn; [done|timer_clause Ht]).
  - (* call *)
    pose proof (request_frame env currentSecret w) as Hf.
    unfold world_after, completion in Hf.
    destruct (Part_002.getClientSecret_request env currentSecret w)
      as [[[?|?] w1] l1]; cbn in *.
    + by apply frame_PreInv.
    + rewrite <- (set_pendingCalls_same w1). by apply frame_PreInv.
  - (* settlement *)
    rewrite exec_world.
    set (w0 := set_pendingCalls _ w).
    rewrite <- (set_pendingCalls_same (world_after _)).
    change (scriptStatus (panel w)) with (scriptStatus (panel w0)).
    apply frame_PreInv; [apply response_frame|exact HI].
  - (* client tool *)
    rewrite exec_world, <- (set_pendingCalls_same (world_after _)).
    apply frame_PreInv; [apply onClientTool_frame|done].
  - rewrite exec_world, <- (set_pendingCalls_same (world_after _)).
    apply frame_PreInv; [solve_frame|done].
  - rewrite exec_world, <- (set_pendingCalls_same (world_after _)).
    apply frame_PreInv; [solve_frame|done].
  - rewrite exec_world, <- (set_pendingCalls_same (world_after _)).
    apply frame_PreInv; [solve_frame|done].
  - rewrite exec_world, <- (set_pendingCalls_same (world_after _)).
    apply frame_PreInv; [solve_frame|done].
  - (* retry: never offered *)
    destruct HI as [Hr Ht]. cbn in Hen.
    rewrite (onRetry_off env _ Hr) in Hen.
    by rewrite andb_false_r in Hen.
  - (* unmount *)
    destruct HI as [Hr Ht]. unfold_handlers.
    split_tests; (split; cbn; [done|timer_clause Ht]); congruence.
Qed.

Lemma Inv_step env ev w :
  Inv env w ->
  enabled (Part_002.component env) ev w = true ->
  Inv env (step (Part_002.component env) ev w).1.
Proof.
  intros HI Hen. rewrite step_after_render. cbn [fst].
  by apply after_render_Inv, handle_PreInv.
Qed.

Lemma Inv_mount env defined :
  Inv env (mount (Part_002.component env) defined).1.
Proof.
  unfold mount.
  cbn [Part_002.component c_initialState c_scriptEffect c_workflowEffect].
  set (w0 := {| panel := Part_002.initialState env defined |}).
  destruct (exec (Part_002.workflowEffect env)
              (exec (Part_002.scriptEffect env) (w0, []))) as [w1 l1] eqn:He.
  rewrite (rerender_spec env 0). cbn [fst].
  apply after_render_Inv.
  revert He. subst w0. unfold Part_002.initialState. unfold_handlers.
  destruct (Part_002.isWorkflowConfigured env), (isBrowser env) eqn:Hb,
    defined; cbn; intros [= <- <-]; split; cbn; try done;
    intros d Hd; simplify_eq; auto.
Qed.

Lemma reachable_Inv env w :
  reachable (Part_002.component env) w -> Inv env w.
Proof.
  induction 1 as [defined | ev w Hw IH Hen].
  - apply Inv_mount.
  - by apply Inv_step.
Qed.

Lemma after_render_same env rendered w :
  scriptStatus (panel w) = rendered -> after_render env rendered w = w.
Proof.
  intros <-. unfold after_render.
  destruct (scriptStatus (panel w)); cbn; by rewrite andb_false_r.
Qed.

Lemma onClientTool_errors env invocation w :
  errors (panel (world_after (Part_002.onClientTool env invocation w))) =
  errors (panel w).
Proof.
  unfold_handlers.
  destruct (String.eqb (name invocation) "switch_theme").
  - destruct (Part_002.requestedScheme _); split_tests; reflexivity.
  - destruct (String.eqb (name invocation) "record_fact"); cbn;
      [|reflexivity].
    destruct (negb _ || _); reflexivity.
Qed.

(** ** Unconfigured workflow *)

Lemma unconfigured env :
  WORKFLOW_ID env = EmptyString
  \/ startsWith (WORKFLOW_ID env) "wf_replace" = true ->
  Part_002.isWorkflowConfigured env = false.
Proof.
  unfold Part_002.isWorkflowConfigured. intros [-> | ->]; [done|].
  apply andb_false_r.
Qed.

Lemma after_render_InvU env rendered w :
  InvU w -> InvU (after_render env rendered w).
Proof.
  unfold InvU, after_render. intros [Hs Hp].
  destruct (isMountedRef (panel w)),
    (ScriptStatus_eqb (scriptStatus (panel w)) rendered), (isBrowser env),
    (chatkitDefined w); cbn; auto.
Qed.

Lemma InvU_mount env defined :
  Part_002.isWorkflowConfigured env = false ->
  InvU (mount (Part_002.component env) defined).1.
Proof.
  intros Hc. unfold mount.
  cbn [Part_002.component c_initialState c_scriptEffect c_workflowEffect].
  set (w0 := {| panel := Part_002.initialState env defined |}).
  destruct (exec (Part_002.workflowEffect env)
              (exec (Part_002.scriptEffect env) (w0, []))) as [w1 l1] eqn:He.
  rewrite (rerender_spec env 0). cbn [fst].
  apply after_render_InvU.
  revert He. subst w0. unfold Part_002.initialState. unfold_handlers.
  rewrite Hc.
  destruct (isBrowser env) eqn:Hb, defined; cbn; intros [= <- <-];
    split; reflexivity.
Qed.

Lemma InvU_step env ev w :
  Part_002.isWorkflowConfigured env = false ->
  Inv env w -> InvU w ->
  enabled (Part_002.component env) ev w = true ->
  InvU (step (Part_002.component env) ev w).1.
Proof.
  intros Hc [Hr Ht] [Hs Hp] Hen.
  rewrite step_after_render. cbn [fst]. apply after_render_InvU.
  destruct ev; cbn [handle Part_002.component c_handleLoaded c_handleError
    c_timeoutCallback c_getClientSecret_request c_getClientSecret_response
    c_onClientTool c_onResponseEnd c_onResponseStart c_onThreadChange
    c_onError c_onRetry c_scriptEffectCleanup c_mountedCleanup].
  - done.
  - unfold_handlers. split_tests; split; cbn; auto.
  - unfold_handlers. split_tests; split; cbn; auto.
  - unfold_handlers. split_tests; split; cbn; auto.
  - unfold_handlers. rewrite Hc. split_tests; split; cbn; auto.
  - cbn in Hen. rewrite Hp in Hen. apply bool_decide_eq_true in Hen.
    by apply elem_of_nil in Hen.
  - rewrite exec_world. split.
    + by rewrite onClientTool_errors.
    + pose proof (onClientTool_frame env invocation w) as Hf.
      unfold frame in Hf. intuition congruence.
  - done.
  - unfold_handlers. split; cbn; auto.
  - done.
  - done.
  - cbn in Hen. rewrite (onRetry_off env _ Hr) in Hen.
    by rewrite andb_false_r in Hen.
  - unfold_handlers. split_tests; split; cbn; auto.
Qed.

Lemma reachable_InvU env w :
  Part_002.isWorkflowConfigured env = false ->
  reachable (Part_002.component env) w -> InvU w.
Proof.
  intros Hc. induction 1 as [defined | ev w Hw IH Hen].
  - by apply InvU_mount.
  - apply InvU_step; auto. by apply reachable_Inv.
Qed.

(** C4. With an empty workflow identifier, or one that starts with
    "wf_replace", [getClientSecret] throws the configuration message
    without issuing a request, and the session error of the panel is the
    configuration message with the retry flag off: the mount sets it at
    once, the call sets it again on a mounted panel, and it holds in every
    reachable state. *)
Theorem unconfigured_workflow_fails_without_fetch (env : Env) :
  WORKFLOW_ID env = EmptyString
  \/ startsWith (WORKFLOW_ID env) "wf_replace" = true ->
  (forall cs net w,
     completion (Part_002.getClientSecret env cs net w) =
       Abrupt (ErrorObject
         "Set NEXT_PUBLIC_CHATKIT_WORKFLOW_ID in your .env.local file.")
     /\ (forall e, e ∈ effects_of (Part_002.getClientSecret env cs net w) ->
           is_fetch e = false)
     /\ (isMountedRef (panel w) = true ->
         errors (panel (world_after (Part_002.getClientSecret env cs net w)))
         = {| script := script (errors (panel w));
              session := Some
                "Set NEXT_PUBLIC_CHATKIT_WORKFLOW_ID in your .env.local file.";
              integration := integration (errors (panel w));
              retryable := false |}))
  /\ (forall w,
        reachable (Part_002.component env) w ->
        session (errors (panel w)) =
          Some "Set NEXT_PUBLIC_CHATKIT_WORKFLOW_ID in your .env.local file."
        /\ retryable (errors (panel w)) = false).
Proof.
  intros Hid. pose proof (unconfigured env Hid) as Hc. split.
  - intros cs net w. unfold_handlers. rewrite Hc.
    split; [|split].
    + split_tests; reflexivity.
    + intros e. split_tests; intros He;
        repeat (apply elem_of_cons in He as [-> | He]; [reflexivity|]);
        by apply elem_of_nil in He.
    + intros Hm. split_tests; reflexivity.
  - intros w Hw. split.
    + by apply (reachable_InvU env w Hc).
    + by apply (reachable_Inv env w).
Qed.

Lemma unconfigured_workflow_fails_without_fetch_witness :
  let env := example_env "wf_replace_with_your_id" in
  let w := (mount (Part_002.component env) false).1 in
  completion
    (Part_002.getClientSecret env None
       (Responded {| status := 200; statusText := "OK"; body := sk_abc_text |})
       w) =
    Abrupt (ErrorObject
      "Set NEXT_PUBLIC_CHATKIT_WORKFLOW_ID in your .env.local file.")
  /\ session (errors (panel w)) =
       Some "Set NEXT_PUBLIC_CHATKIT_WORKFLOW_ID in your .env.local file.".
Proof.
  pose proof (unconfigured_workflow_fails_without_fetch
                (example_env "wf_replace_with_your_id")
                (or_intror eq_refl)) as [Hcall Hreach].
  split.
  - apply Hcall.
  - apply Hreach, reachable_mount.
Defined.

(** ** Retry flag *)

(** C9. In every reachable state of the panel the retry flag is off, so
    the [onRetry] property handed to the error overlay is [null]. *)
Theorem retryable_never_set (env : Env) (w : World) :
  reachable (Part_002.component env) w ->
  retryable (errors (panel w)) = false
  /\ Part_002.onRetry env (errors (panel w)) = None.
Proof.
  intros Hw. destruct (reachable_Inv env w Hw) as [Hr _].
  split; [exact Hr|]. by apply onRetry_off.
Qed.

Lemma retryable_never_set_witness :
  let env := example_env "wf_123" in
  let C := Part_002.component env in
  let w := (step C (EvScriptError JUndefined) (mount C false).1).1 in
  retryable (errors (panel w)) = false
  /\ Part_002.onRetry env (errors (panel w)) = None.
Proof.
  apply (retryable_never_set (example_env "wf_123")).
  apply reachable_step; [apply reachable_mount|reflexivity].
Defined.

(** ** Error banner *)

(** C6. For every error state the blocking error is a single message (or
    none), picked in fixed order: the script error when there is one,
    otherwise the session error when there is one, otherwise the
    integration error; whenever some error is set, one is surfaced. *)
Theorem blockingError_priority (e : ErrorState) :
  Part_002.blockingError e =
    match script e, session e, integration e with
    | Some m, _, _ => Some m
    | None, Some m, _ => Some m
    | None, None, shown => shown
    end
  /\ (is_Some (script e) \/ is_Some (session e) \/ is_Some (integration e) ->
      is_Some (Part_002.blockingError e))
  /\ (is_Some (Part_002.blockingError e) ->
      is_Some (script e) \/ is_Some (session e) \/ is_Some (integration e)).
Proof.
  unfold Part_002.blockingError, Part_002.activeError, nullish_str.
  destruct e as [[sc|] [se|] [ig|] rt]; cbn; repeat split; eauto;
    intros H; try (by destruct H as [H | [H | H]]; inversion H);
    try by inversion H.
Qed.

Lemma blockingError_priority_witness :
  Part_002.blockingError
    {| script := None; session := Some "quota exceeded";
       integration := Some "widget failed"; retryable := false |} =
    Some "quota exceeded"
  /\ is_Some (Part_002.blockingError
       {| script := None; session := Some "quota exceeded";
          integration := Some "widget failed"; retryable := false |}).
Proof.
  split.
  - apply (blockingError_priority
             {| script := None; session := Some "quota exceeded";
                integration := Some "widget failed"; retryable := false |}).
  - apply (blockingError_priority
             {| script := None; session := Some "quota exceeded";
                integration := Some "widget failed"; retryable := false |}).
    right. left. by eexists.
Defined.

(** ** Reset *)

(** C8. Whatever the error state, the reset empties the set of processed
    facts, puts the four error fields back to their initial values, raises
    the loading flag, recomputes the script status from the registration of
    the element (in a browser, where alone the handler can run) and
    increments the widget instance key; it emits nothing and touches
    nothing else. *)
Theorem handleResetChat_resets (env : Env) (w : World) :
  Part_002.handleResetChat env w =
    (Normal tt,
     {| panel :=
          {| processedFacts := ∅;
             errors := {| script := None; session := None;
                          integration := None; retryable := false |};
             isInitializingSession := true;
             isMountedRef := isMountedRef (panel w);
             scriptStatus :=
               if isBrowser env
               then (if chatkitDefined w then ready else pending)
               else scriptStatus (panel w);
             widgetInstanceKey := widgetInstanceKey (panel w) + 1 |};
        chatkitDefined := chatkitDefined w;
        listening := listening w;
        timeoutId := timeoutId w;
        pendingCalls := pendingCalls w |},
     [])
  /\ (forall e : ErrorState,
        Part_002.handleResetChat env (world_after (setErrors (fun _ => e) w))
        = Part_002.handleResetChat env w).
Proof.
  split.
  - unfold_handlers. unfold Part_002.createInitialErrors.
    destruct (isBrowser env); reflexivity.
  - intros e. unfold_handlers. destruct (isBrowser env); reflexivity.
Qed.

(** ** Script readiness *)


(** ** Deduplication of recorded facts *)

Lemma relays_app id l1 l2 :
  relays id (l1 ++ l2) = (relays id l1 + relays id l2)%nat.
Proof.
  induction l1 as [|e l1 IH]; cbn; [done|]. rewrite IH. lia.
Qed.

Lemma after_render_processedFacts env rendered w :
  processedFacts (panel (after_render env rendered w)) =
  processedFacts (panel w).
Proof.
  unfold after_render.
  destruct (isMountedRef (panel w)),
    (ScriptStatus_eqb (scriptStatus (panel w)) rendered), (isBrowser env),
    (chatkitDefined w); reflexivity.
Qed.

(** A [record_fact] invocation whose identifier is new and not empty. *)
Lemma record_fact_first env invocation w :
  name invocation = "record_fact" ->
  factIdOf env invocation <> EmptyString ->
  factIdOf env invocation ∉ processedFacts (panel w) ->
  exists text,
    Part_002.onClientTool env invocation w =
      (Normal {| success := true |},
       world_after
         (set_processedFacts
            (fun facts => {[ factIdOf env invocation ]} ∪ facts) w),
       [CallOnWidgetAction
          {| factId := factIdOf env invocation; factText := text |}]).
Proof.
  intros Hname Hid Hnew. unfold Part_002.onClientTool. rewrite Hname.
  cbn [String.eqb Ascii.eqb Bool.eqb]. fold (factIdOf env invocation).
  unfold_proc. cbn.
  rewrite (bool_decide_eq_false_2 _ Hnew).
  destruct (factIdOf env invocation); [done|]. cbn.
  eexists. reflexivity.
Qed.

(** A [record_fact] invocation whose identifier was processed already. *)
Lemma record_fact_again env invocation w :
  name invocation = "record_fact" ->
  factIdOf env invocation ∈ processedFacts (panel w) ->
  Part_002.onClientTool env invocation w =
    (Normal {| success := true |}, w, []).
Proof.
  intros Hname Hseen. unfold Part_002.onClientTool. rewrite Hname.
  cbn [String.eqb Ascii.eqb Bool.eqb]. fold (factIdOf env invocation).
  unfold_proc. cbn.
  rewrite (bool_decide_eq_true_2 _ Hseen), orb_true_r. reflexivity.
Qed.

Lemma classic_client_tool ev :
  (exists invocation, ev = EvClientTool invocation)
  \/ (forall invocation, ev <> EvClientTool invocation).
Proof. destruct ev; eauto; right; discriminate. Qed.

(** What a client tool invocation relays of fact [id], and what it does
    to the processed set. *)
Lemma onClientTool_relays env id invocation w :
  let r := Part_002.onClientTool env invocation w in
  processedFacts (panel w) ⊆ processedFacts (panel (world_after r))
  /\ (relays id (effects_of r) = 0%nat
      \/ (relays id (effects_of r) = 1%nat
          /\ (id ∉ processedFacts (panel w))
          /\ (id ∈ processedFacts (panel (world_after r))))).
Proof.
  unfold Part_002.onClientTool.
  destruct (String.eqb (name invocation) "switch_theme").
  - destruct (Part_002.requestedScheme _); unfold_proc;
      split_tests; auto.
  - destruct (String.eqb (name invocation) "record_fact");
      [|unfold_proc; cbn; auto].
    fold (factIdOf env invocation). unfold_proc. cbn.
    destruct (str_truthy (factIdOf env invocation)); cbn; [|auto].
    destruct (bool_decide (factIdOf env invocation ∈ processedFacts (panel w)))
      eqn:Hseen; cbn; [auto|].
    apply bool_decide_eq_false in Hseen.
    split; [apply union_subseteq_r|].
    destruct (String.eqb_spec (factIdOf env invocation) id) as [<-|Hne].
    + right. split; [done|]. split; [done|].
      by apply elem_of_union_l, elem_of_singleton.
    + by left.
Qed.

(** The other handlers of a thread relay nothing and leave the processed
    set alone. *)
Lemma handle_other_relays env id ev w :
  ends_thread ev = false ->
  (forall invocation, ev <> EvClientTool invocation) ->
  processedFacts (panel (handle (Part_002.component env) ev w).1) =
    processedFacts (panel w)
  /\ relays id (handle (Part_002.component env) ev w).2 = 0%nat.
Proof.
  intros Hev Hother.
  destruct w as [[facts errs init mounted status key] defined lst tmr calls].
  destruct ev; try discriminate;
    cbn [handle Part_002.component c_handleLoaded c_handleError
      c_timeoutCallback c_getClientSecret_request c_getClientSecret_response
      c_onClientTool c_onResponseEnd c_onResponseStart c_onThreadChange
      c_onError c_onRetry c_scriptEffectCleanup c_mountedCleanup];
    try (by destruct (Hother invocation));
    unfold_handlers; cbn.
  - auto.
  - destruct mounted; cbn; auto.
  - destruct mounted; cbn; auto.
  - destruct defined, mounted; cbn; auto.
  - destruct (isDev env), (Part_002.isWorkflowConfigured env), mounted,
      (opt_truthy currentSecret); cbn; auto.
  - destruct net as [resp|[message|v]]; cbn.
    + destruct (isDev env), (str_truthy (body resp)); cbn;
        try destruct (JSON_parse env (body resp)); cbn;
        destruct (ok resp), mounted, (opt_truthy currentSecret); cbn; auto;
        match goal with
        | |- context [truthy ?v] => destruct (truthy v); cbn; auto
        end.
    + destruct mounted, (opt_truthy currentSecret); cbn; auto.
    + destruct mounted, (opt_truthy currentSecret); cbn; auto.
  - auto.
  - auto.
  - auto.
  - destruct (isBrowser env); cbn; auto.
Qed.

(** Within a thread, one turn relays a fact at most once, only when it
    was not processed yet, and never forgets a processed fact. *)
Lemma step_relays env id ev w :
  ends_thread ev = false ->
  let r := step (Part_002.component env) ev w in
  (id ∈ processedFacts (panel w) -> id ∈ processedFacts (panel r.1))
  /\ (relays id r.2 = 0%nat
      \/ (relays id r.2 = 1%nat
          /\ (id ∉ processedFacts (panel w))
          /\ (id ∈ processedFacts (panel r.1)))).
Proof.
  intros Hev r. subst r. rewrite step_after_render. cbn [fst snd].
  rewrite after_render_processedFacts.
  destruct (classic_client_tool ev) as [[invocation ->] | Hother].
  - cbn [handle Part_002.component c_onClientTool].
    rewrite exec_world, exec_effects.
    destruct (onClientTool_relays env id invocation w) as [Hsub Hrel].
    split; [apply Hsub|exact Hrel].
  - destruct (handle_other_relays env id ev w Hev Hother) as [-> ->]. auto.
Qed.

(** C5. A [record_fact] invocation whose identifier is not empty and not
    yet processed relays exactly one widget action for it and adds it to
    the processed set; an invocation whose identifier is processed relays
    nothing; throughout a thread (any sequence of turns without a thread
    change or reset) a fact is relayed at most once, and not at all when it
    was processed before; a thread change empties the processed set, after
    which the same identifier is relayed again. *)
Theorem record_fact_relayed_once_per_thread
    (env : Env) (invocation : Invocation) (w : World) :
  name invocation = "record_fact" ->
  let id := factIdOf env invocation in
  (id <> EmptyString -> id ∉ processedFacts (panel w) ->
   relays id (effects_of (Part_002.onClientTool env invocation w)) = 1%nat
   /\ processedFacts
        (panel (world_after (Part_002.onClientTool env invocation w))) =
      {[ id ]} ∪ processedFacts (panel w))
  /\ (id ∈ processedFacts (panel w) ->
      Part_002.onClientTool env invocation w =
        (Normal {| success := true |}, w, []))
  /\ (forall evs,
        Forall (fun ev => ends_thread ev = false) evs ->
        (relays id (run (Part_002.component env) evs w).2 <= 1)%nat
        /\ (id ∈ processedFacts (panel w) ->
            relays id (run (Part_002.component env) evs w).2 = 0%nat))
  /\ processedFacts (panel (world_after (Part_002.onThreadChange w))) = ∅
  /\ (id <> EmptyString ->
      relays id
        (effects_of
           (Part_002.onClientTool env invocation
              (world_after (Part_002.onThreadChange w)))) = 1%nat).
Proof.
  intros Hname id.
  assert (Hfirst : forall w0,
    id <> EmptyString -> id ∉ processedFacts (panel w0) ->
    relays id (effects_of (Part_002.onClientTool env invocation w0)) = 1%nat
    /\ processedFacts
         (panel (world_after (Part_002.onClientTool env invocation w0))) =
       {[ id ]} ∪ processedFacts (panel w0)).
  { intros w0 Hid Hnew.
    destruct (record_fact_first env invocation w0 Hname Hid Hnew)
      as [text ->].
    unfold effects_of, world_after. cbn. fold id.
    by rewrite String.eqb_refl. }
  split; [apply Hfirst|].
  split; [by apply record_fact_again|].
  split; [|split].
  - intros evs. revert w.
    induction evs as [|ev evs IH]; intros w Hevs; [cbn; auto|].
    cbn [run]. apply Forall_cons in Hevs as [Hev Hevs].
    pose proof (step_relays env id ev w Hev) as [Hkeep Hrel].
    destruct (step (Part_002.component env) ev w) as [w1 l1].
    specialize (IH w1 Hevs) as [IH1 IH0].
    destruct (run (Part_002.component env) evs w1) as [w2 l2].
    cbn [fst snd] in *. rewrite relays_app.
    destruct Hrel as [Hz | (Hone & Hnew & Hin)].
    + rewrite Hz. split; [lia|]. intros Hin. by apply IH0, Hkeep.
    + rewrite Hone, (IH0 Hin). split; [lia|]. intros Hin'. done.
  - reflexivity.
  - intros Hid. apply Hfirst; [done|]. cbn. apply not_elem_of_empty.
Qed.

Lemma record_fact_relayed_once_per_thread_witness :
  let env := example_env "wf_123" in
  let invocation :=
    {| name := "record_fact";
       params := [("fact_id", JStr "fact-1");
                  ("fact_text", JStr "likes  tea ")] |} in
  let w := (mount (Part_002.component env) false).1 in
  relays "fact-1" (effects_of (Part_002.onClientTool env invocation w)) = 1%nat
  /\ (relays "fact-1"
        (run (Part_002.component env)
           [EvClientTool invocation; EvResponseEnd; EvClientTool invocation]
           w).2 <= 1)%nat.
Proof.
  intros env invocation w.
  pose proof (record_fact_relayed_once_per_thread env invocation w eq_refl)
    as (Hfirst & _ & Hthread & _).
  split.
  - apply Hfirst; [discriminate|apply not_elem_of_empty].
  - apply Hthread. repeat constructor.
Defined.

(** ** The two variants *)

(** C10. The two sources have the same logic: their bootstrap call, error
    extraction, client tool handler, thread-change handler, reset and error
    precedence are equal functions, their components are equal, and so are
    all their runs; they differ in what they display (markup is outside
    this model; the status labels, loading title and accent colour are in
    it). *)
Theorem variants_agree (env : Env) :
  (forall cs net w,
     Part_001.getClientSecret env cs net w =
     Part_002.getClientSecret env cs net w)
  /\ (forall payload fallback,
        Part_001.extractErrorDetail payload fallback =
        Part_002.extractErrorDetail payload fallback)
  /\ (forall invocation w,
        Part_001.onClientTool env invocation w =
        Part_002.onClientTool env invocation w)
  /\ (forall w, Part_001.onThreadChange w = Part_002.onThreadChange w)
  /\ (forall w, Part_001.handleResetChat env w = Part_002.handleResetChat env w)
  /\ (forall e, Part_001.blockingError e = Part_002.blockingError e)
  /\ Part_001.component env = Part_002.component env
  /\ (forall defined,
        mount (Part_001.component env) defined =
        mount (Part_002.component env) defined)
  /\ (forall evs w,
        run (Part_001.component env) evs w =
        run (Part_002.component env) evs w)
  /\ (forall p,
        opt_truthy (Part_002.blockingError (errors p)) = false ->
        isInitializingSession p = false ->
        Part_001.statusLabel p = "Ready"
        /\ Part_002.statusLabel p = "Online")
  /\ Part_001.loadingTitle <> Part_002.loadingTitle
  /\ Part_001.accentPrimary <> Part_002.accentPrimary.
Proof.
  assert (Hc : Part_001.component env = Part_002.component env)
    by reflexivity.
  do 6 (split; [reflexivity|]).
  split; [exact Hc|].
  split; [intros defined; by rewrite Hc|].
  split; [intros evs w; by rewrite Hc|].
  split; [|split; discriminate].
  intros p Herr Hinit.
  unfold Part_001.statusLabel, Part_002.statusLabel.
  change (Part_001.blockingError (errors p))
    with (Part_002.blockingError (errors p)).
  by rewrite Herr, Hinit.
Qed.

Lemma variants_agree_witness :
  let p := Part_002.initialState (example_env "wf_123") true in
  let p' :=
    {| processedFacts := processedFacts p; errors := errors p;
       isInitializingSession := false; isMountedRef := isMountedRef p;
       scriptStatus := scriptStatus p;
       widgetInstanceKey := widgetInstanceKey p |} in
  Part_001.statusLabel p' = "Ready" /\ Part_002.statusLabel p' = "Online".
Proof.
  intros p p'.
  apply (variants_agree (example_env "wf_123")); reflexivity.
Defined.

(** * Further properties of the panel *)

(** ** Outcomes of the bootstrap call *)

(** X1. When the request itself fails, the call rejects with the thrown
    [Error] unchanged, or with the fixed fallback message when the thrown
    value is not an [Error]; the failure is logged. *)
Theorem getClientSecret_request_failure
    (env : Env) (cs : option string) (e : Thrown) (w : World) :
  Part_002.isWorkflowConfigured env = true ->
  completion (Part_002.getClientSecret env cs (Rejected e) w) =
    Abrupt (ErrorObject (thrown_message e))
  /\ ConsoleError "Failed to create ChatKit session"
       ∈ effects_of (Part_002.getClientSecret env cs (Rejected e) w).
Proof.
  intros Hc.
  destruct w as [[facts errs init mounted status key] defined lst tmr calls].
  unfold_call. rewrite Hc. cbn.
  destruct e, (isDev env), mounted, (opt_truthy cs); cbn;
    (split; [reflexivity|in_list]).
Qed.

Lemma getClientSecret_request_failure_witness :
  completion
    (Part_002.getClientSecret (example_env "wf_123") None
       (Rejected (NotAnError (JStr "offline")))
       (mount (Part_002.component (example_env "wf_123")) false).1) =
    Abrupt (ErrorObject "Unable to start ChatKit session.").
Proof.
  apply (getClientSecret_request_failure (example_env "wf_123") None
           (NotAnError (JStr "offline"))); reflexivity.
Defined.

(** Case analysis on everything a bootstrap call tests, on a world given
    by its fields. *)
Ltac split_call env cs net :=
  destruct net as [?r|[?m|?v]]; cbn;
  destruct (isDev env); cbn;
  try match goal with
      | r : Response |- _ =>
          destruct (str_truthy (body r)); cbn;
          try destruct (JSON_parse env (body r)); cbn;
          destruct (ok r) eqn:?; cbn
      end;
  repeat match goal with
         | |- context [truthy ?v] => destruct (truthy v) eqn:?; cbn
         | |- context [opt_truthy cs] => destruct (opt_truthy cs) eqn:?; cbn
         end.

(** X2. The call only ever rejects with an [Error], and on a mounted panel
    the session error is then exactly the message it rejects with, the
    retry flag being off. *)
Theorem getClientSecret_rejection_is_session_error
    (env : Env) (cs : option string) (net : FetchOutcome) (w : World)
    (e : Thrown) :
  completion (Part_002.getClientSecret env cs net w) = Abrupt e ->
  exists message,
    e = ErrorObject message
    /\ (isMountedRef (panel w) = true ->
        session (errors (panel (world_after
          (Part_002.getClientSecret env cs net w)))) = Some message
        /\ retryable (errors (panel (world_after
             (Part_002.getClientSecret env cs net w)))) = false).
Proof.
  destruct w as [[facts errs init mounted status key] defined lst tmr calls].
  unfold_call.
  destruct (Part_002.isWorkflowConfigured env), mounted; cbn;
    split_call env cs net;
    intros [= <-]; eexists; (split; [reflexivity|]); intros; try done;
    split; reflexivity.
Qed.

Lemma getClientSecret_rejection_is_session_error_witness :
  let env := example_env "wf_123" in
  let w := (mount (Part_002.component env) false).1 in
  let r := {| status := 500; statusText := "Internal Server Error";
              body := "<html>oops</html>" |} in
  exists message,
    ErrorObject "Internal Server Error" = ErrorObject message
    /\ (isMountedRef (panel w) = true ->
        session (errors (panel (world_after
          (Part_002.getClientSecret env None (Responded r) w)))) = Some message
        /\ retryable (errors (panel (world_after
             (Part_002.getClientSecret env None (Responded r) w)))) = false).
Proof.
  intros env w r.
  apply (getClientSecret_rejection_is_session_error env None (Responded r) w).
  reflexivity.
Defined.

(** X3. The call never resolves to a falsy credential: when it resolves,
    the workflow is configured, the response was a 2xx one, and the value
    is the truthy [client_secret] of the parsed body. *)
Theorem getClientSecret_resolves_only_truthy
    (env : Env) (cs : option string) (net : FetchOutcome) (w : World)
    (v : JValue) :
  completion (Part_002.getClientSecret env cs net w) = Normal v ->
  Part_002.isWorkflowConfigured env = true
  /\ truthy v = true
  /\ exists r,
       net = Responded r /\ ok r = true
       /\ v = clientSecretOf (parsedBody env (body r)).
Proof.
  intros Hv.
  destruct (Part_002.isWorkflowConfigured env) eqn:Hc.
  - split; [reflexivity|].
    destruct (configured_call_completion env cs net w Hc) as [w1 Hw1].
    rewrite Hw1 in Hv. destruct net as [r|e].
    + rewrite response_completion in Hv.
      destruct (ok r) eqn:Hok; [|discriminate].
      destruct (truthy (clientSecretOf (parsedBody env (body r)))) eqn:Ht;
        [|discriminate].
      injection Hv as <-. split; [exact Ht|]. by exists r.
    + exfalso. revert Hv.
      destruct w1 as [[facts errs init mounted status key]
                        defined lst tmr calls].
      unfold_call. cbn. destruct e, mounted, (opt_truthy cs); discriminate.
  - exfalso. revert Hv.
    destruct w as [[facts errs init mounted status key] defined lst tmr calls].
    unfold_call. rewrite Hc. cbn.
    destruct (isDev env), mounted; discriminate.
Qed.

Lemma getClientSecret_resolves_only_truthy_witness :
  truthy (JStr "sk_abc") = true.
Proof.
  apply (getClientSecret_resolves_only_truthy (example_env "wf_123") None
           (Responded {| status := 201; statusText := "Created";
                         body := sk_abc_text |})
           (mount (Part_002.component (example_env "wf_123")) false).1
           (JStr "sk_abc")).
  reflexivity.
Defined.

(** X4. A call with a configured workflow issues exactly one request,
    whatever the outcome: a POST to the session endpoint carrying the
    workflow identifier. *)
Theorem getClientSecret_one_request
    (env : Env) (cs : option string) (net : FetchOutcome) (w : World) :
  Part_002.isWorkflowConfigured env = true ->
  only_fetches (effects_of (Part_002.getClientSecret env cs net w)) =
    [Fetch (CREATE_SESSION_ENDPOINT env) "POST" (WORKFLOW_ID env)].
Proof.
  intros Hc.
  destruct w as [[facts errs init mounted status key] defined lst tmr calls].
  unfold_call. rewrite Hc. cbn.
  destruct mounted; cbn; split_call env cs net; reflexivity.
Qed.

Lemma getClientSecret_one_request_witness :
  only_fetches
    (effects_of
       (Part_002.getClientSecret (example_env "wf_123") (Some "old_secret")
          (Rejected (ErrorObject "Failed to fetch"))
          (mount (Part_002.component (example_env "wf_123")) true).1)) =
    [Fetch "/api/create-session" "POST" "wf_123"].
Proof.
  apply (getClientSecret_one_request (example_env "wf_123")). reflexivity.
Defined.

(** X5. On an unmounted panel the guarded handlers change no state: the
    bootstrap call (both of its parts), the two script listeners and the
    workflow check leave the panel as it was. *)
Theorem unmounted_panel_untouched
    (env : Env) (cs : option string) (net : FetchOutcome)
    (detail : JValue) (w : World) :
  isMountedRef (panel w) = false ->
  world_after (Part_002.getClientSecret env cs net w) = w
  /\ world_after (Part_002.getClientSecret_request env cs w) = w
  /\ world_after (Part_002.getClientSecret_response env cs net w) = w
  /\ world_after (Part_002.handleLoaded w) = w
  /\ world_after (Part_002.handleError env detail w) = w
  /\ world_after (Part_002.workflowEffect env w) = w.
Proof.
  destruct w as [[facts errs init mounted status key] defined lst tmr calls].
  cbn. intros ->. unfold_handlers.
  repeat split.
  - destruct (Part_002.isWorkflowConfigured env); cbn;
      split_call env cs net; reflexivity.
  - destruct (Part_002.isWorkflowConfigured env), (isDev env); reflexivity.
  - split_call env cs net; reflexivity.
  - destruct (Part_002.isWorkflowConfigured env); reflexivity.
Qed.

Lemma unmounted_panel_untouched_witness :
  let env := example_env "wf_123" in
  let C := Part_002.component env in
  let w := (step C EvUnmount (mount C false).1).1 in
  world_after
    (Part_002.getClientSecret env None
       (Responded {| status := 200; statusText := "OK"; body := sk_abc_text |})
       w) = w.
Proof.
  intros env C w.
  apply (unmounted_panel_untouched env None
           (Responded {| status := 200; statusText := "OK";
                         body := sk_abc_text |}) JUndefined w).
  reflexivity.
Defined.

(** X6. The loading flag after a call on a mounted panel: a call made
    without a current secret always ends with the flag cleared, whatever
    the outcome; a refresh (a call with a current secret) on a configured
    workflow leaves the flag as it was. *)
Theorem getClientSecret_loading_flag
    (env : Env) (cs : option string) (net : FetchOutcome) (w : World) :
  isMountedRef (panel w) = true ->
  isInitializingSession
    (panel (world_after (Part_002.getClientSecret env cs net w))) =
  if Part_002.isWorkflowConfigured env && opt_truthy cs
  then isInitializingSession (panel w)
  else false.
Proof.
  destruct w as [[facts errs init mounted status key] defined lst tmr calls].
  cbn. intros ->. unfold_call.
  destruct (Part_002.isWorkflowConfigured env); cbn;
    split_call env cs net; reflexivity.
Qed.

Lemma getClientSecret_loading_flag_witness :
  let env := example_env "wf_123" in
  let w := (mount (Part_002.component env) false).1 in
  isInitializingSession
    (panel (world_after
      (Part_002.getClientSecret env (Some "old_secret")
         (Rejected (ErrorObject "Failed to fetch")) w))) = true.
Proof.
  intros env w.
  apply (getClientSecret_loading_flag env (Some "old_secret")
           (Rejected (ErrorObject "Failed to fetch")) w).
  reflexivity.
Defined.



(** ** Client tools *)

(** X8. A [switch_theme] invocation never changes the panel; it relays
    the requested scheme to the host exactly once and acknowledges success
    when the [theme] parameter is the string "light" or "dark", and
    otherwise does nothing and reports failure. *)
Theorem switch_theme_relays_valid_scheme
    (env : Env) (invocation : Invocation) (w : World) :
  name invocation = "switch_theme" ->
  world_after (Part_002.onClientTool env invocation w) = w
  /\ (forall scheme,
        get_prop "theme" (JObj (params invocation)) = JStr (scheme_name scheme) ->
        completion (Part_002.onClientTool env invocation w) =
          Normal {| success := true |}
        /\ theme_requests (effects_of (Part_002.onClientTool env invocation w))
           = [scheme])
  /\ ((forall scheme,
         get_prop "theme" (JObj (params invocation)) <> JStr (scheme_name scheme)) ->
      Part_002.onClientTool env invocation w =
        (Normal {| success := false |}, w, [])).
Proof.
  intros Hname. unfold Part_002.onClientTool. rewrite Hname.
  cbn [String.eqb Ascii.eqb Bool.eqb].
  set (requested := get_prop "theme" (JObj (params invocation))).
  destruct w as [[facts errs init mounted status key] defined lst tmr calls].
  split; [|split].
  - destruct (Part_002.requestedScheme requested); unfold_proc;
      destruct (isDev env); reflexivity.
  - intros scheme ->. unfold_proc.
    destruct scheme, (isDev env); split; reflexivity.
  - intros Hbad.
    assert (Hnone : Part_002.requestedScheme requested = None).
    { unfold Part_002.requestedScheme.
      destruct requested as [| |b|n|s|items|fields]; try reflexivity.
      destruct (String.eqb_spec s "light") as [->|_];
        [by destruct (Hbad light)|].
      destruct (String.eqb_spec s "dark") as [->|_];
        [by destruct (Hbad dark)|].
      reflexivity. }
    rewrite Hnone. reflexivity.
Qed.

Lemma switch_theme_relays_valid_scheme_witness :
  let env := example_env "wf_123" in
  let w := (mount (Part_002.component env) true).1 in
  theme_requests
    (effects_of
       (Part_002.onClientTool env
          {| name := "switch_theme"; params := [("theme", JStr "dark")] |} w))
  = [dark]
  /\ Part_002.onClientTool env
       {| name := "switch_theme"; params := [("theme", JStr "sepia")] |} w
     = (Normal {| success := false |}, w, []).
Proof.
  intros env w. split.
  - pose proof (switch_theme_relays_valid_scheme env
                  {| name := "switch_theme";
                     params := [("theme", JStr "dark")] |} w eq_refl)
      as (_ & Hvalid & _).
    by apply (Hvalid dark).
  - pose proof (switch_theme_relays_valid_scheme env
                  {| name := "switch_theme";
                     params := [("theme", JStr "sepia")] |} w eq_refl)
      as (_ & _ & Hbad).
    apply Hbad. intros []; discriminate.
Defined.

(** X9. Acknowledgement of client tools: a [record_fact] invocation is
    always acknowledged with success, also when nothing is relayed; an
    invocation under any other name than the two tools is refused without
    any effect. *)
Theorem onClientTool_acknowledgement
    (env : Env) (invocation : Invocation) (w : World) :
  (name invocation = "record_fact" ->
   completion (Part_002.onClientTool env invocation w) =
     Normal {| success := true |})
  /\ (name invocation <> "switch_theme" ->
      name invocation <> "record_fact" ->
      Part_002.onClientTool env invocation w =
        (Normal {| success := false |}, w, [])).
Proof.
  split.
  - intros Hname. unfold Part_002.onClientTool. rewrite Hname.
    cbn [String.eqb Ascii.eqb Bool.eqb]. unfold_proc. cbn.
    destruct (negb _ || _); reflexivity.
  - intros Hn1 Hn2. unfold Part_002.onClientTool.
    apply String.eqb_neq in Hn1, Hn2. rewrite Hn1, Hn2. reflexivity.
Qed.

Lemma onClientTool_acknowledgement_witness :
  let env := example_env "wf_123" in
  let w := (mount (Part_002.component env) true).1 in
  completion
    (Part_002.onClientTool env {| name := "record_fact"; params := [] |} w)
  = Normal {| success := true |}
  /\ Part_002.onClientTool env
       {| name := "delete_fact"; params := [("fact_id", JStr "f1")] |} w
     = (Normal {| success := false |}, w, []).
Proof.
  intros env w. split.
  - by apply (onClientTool_acknowledgement env
                {| name := "record_fact"; params := [] |} w).
  - by apply (onClientTool_acknowledgement env
                {| name := "delete_fact"; params := [("fact_id", JStr "f1")] |}
                w).
Defined.

(** X10. A [record_fact] invocation whose [fact_id] is missing, [null],
    [undefined] or the empty string relays nothing and leaves the
    processed set alone. *)
Theorem record_fact_without_id_is_ignored
    (env : Env) (invocation : Invocation) (w : World) :
  name invocation = "record_fact" ->
  lookup_field "fact_id" (params invocation) = None
  \/ lookup_field "fact_id" (params invocation) = Some JNull
  \/ lookup_field "fact_id" (params invocation) = Some JUndefined
  \/ lookup_field "fact_id" (params invocation) = Some (JStr EmptyString) ->
  Part_002.onClientTool env invocation w =
    (Normal {| success := true |}, w, []).
Proof.
  intros Hname Hid. unfold Part_002.onClientTool. rewrite Hname.
  cbn [String.eqb Ascii.eqb Bool.eqb]. unfold_proc. cbn.
  destruct Hid as [-> | [-> | [-> | ->]]]; reflexivity.
Qed.

Lemma record_fact_without_id_is_ignored_witness :
  let env := example_env "wf_123" in
  let w := (mount (Part_002.component env) true).1 in
  Part_002.onClientTool env
    {| name := "record_fact"; params := [("fact_text", JStr "likes tea")] |} w
  = (Normal {| success := true |}, w, []).
Proof.
  intros env w.
  apply (record_fact_without_id_is_ignored env
           {| name := "record_fact";
              params := [("fact_text", JStr "likes tea")] |} w eq_refl).
  left. reflexivity.
Defined.

(** ** Further invariants of the mounted panel *)

Lemma prefix_append (p s : string) : String.prefix p (p +:+ s) = true.
Proof.
  induction p as [|a p IH]; simpl.
  - destruct s; reflexivity.
  - destruct (ascii_dec a a) as [_|Hne]; [exact IH|by destruct Hne].
Qed.

Lemma after_render_Inv2 env rendered w :
  Inv2 env w -> Inv2 env (after_render env rendered w).
Proof.
  destruct w as [[facts [sc se ig rt] init mounted status key]
                   defined lst tmr calls].
  unfold Inv2, after_render. cbn. intros (Hi & Hk & Hs & Hl & He).
  destruct mounted, (ScriptStatus_eqb status rendered), (isBrowser env),
    defined; cbn; repeat split; auto; try discriminate;
    try (by apply Hl).
Qed.

(** What a client tool invocation does to the world: at most, one
    identifier that is not empty joins the processed set. *)
Lemma onClientTool_world env invocation w :
  world_after (Part_002.onClientTool env invocation w) = w
  \/ exists id,
       id <> EmptyString
       /\ world_after (Part_002.onClientTool env invocation w) =
          world_after (set_processedFacts (fun facts => {[ id ]} ∪ facts) w).
Proof.
  destruct w as [[facts errs init mounted status key] defined lst tmr calls].
  unfold Part_002.onClientTool.
  destruct (String.eqb (name invocation) "switch_theme").
  - left. destruct (Part_002.requestedScheme _); unfold_proc;
      destruct (isDev env); reflexivity.
  - destruct (String.eqb (name invocation) "record_fact");
      [|by left].
    fold (factIdOf env invocation). unfold_proc. cbn.
    destruct (factIdOf env invocation) as [|c id] eqn:Hid; cbn; [by left|].
    destruct (bool_decide _); cbn; [by left|].
    right. by exists (String c id).
Qed.

(** Prepares a brute-force case of [handle_Inv2]: the world by fields,
    the invariant by clauses, the processed set kept abstract. *)
Ltac open_Inv2 w Hr HI2 :=
  destruct w as [[?facts [?sc ?se ?ig ?rt] ?init ?mounted ?status ?key]
                   ?defined ?lst ?tmr ?calls];
  unfold Inv2 in *; cbn in Hr, HI2 |- *;
  destruct HI2 as (-> & -> & ?Hs & ?Hl & ?He); subst;
  unfold_handlers; cbn.

(** Closes the clauses of [Inv2] once the handler is computed. *)
Ltac close_Inv2 Hl :=
  repeat split;
  first [ done | discriminate | reflexivity | apply prefix_append
        | match goal with
          | H : _ = true |- _ => destruct (Hl H); done
          end ].

Lemma handle_Inv2 env ev w :
  Inv env w -> Inv2 env w ->
  enabled (Part_002.component env) ev w = true ->
  Inv2 env (handle (Part_002.component env) ev w).1.
Proof.
  intros [Hr _] HI2 Hen.
  destruct ev;
    cbn [handle Part_002.component c_handleLoaded c_handleError
      c_timeoutCallback c_getClientSecret_request c_getClientSecret_response
      c_onClientTool c_onResponseEnd c_onResponseStart c_onThreadChange
      c_onError c_onRetry c_scriptEffectCleanup c_mountedCleanup].
  - (* the element gets defined *) exact HI2.
  - (* script loaded *)
    open_Inv2 w Hr HI2.
    destruct mounted; cbn; close_Inv2 Hl.
  - (* script error *)
    open_Inv2 w Hr HI2. destruct mounted; cbn; close_Inv2 Hl.
  - (* timeout *)
    open_Inv2 w Hr HI2. destruct defined, mounted; cbn; close_Inv2 Hl.
  - (* call *)
    open_Inv2 w Hr HI2.
    destruct (isDev env), (Part_002.isWorkflowConfigured env), mounted,
      (opt_truthy currentSecret); cbn; close_Inv2 Hl.
  - (* settlement *)
    open_Inv2 w Hr HI2.
    destruct mounted; split_call env currentSecret net; close_Inv2 Hl.
  - (* client tool *)
    rewrite exec_world.
    destruct (onClientTool_world env invocation w) as [-> | (id & Hid & ->)];
      [done|].
    destruct HI2 as (Hi & Hk & Hs & Hl & He).
    unfold Inv2. unfold_proc. cbn.
    split; [done|]. split; [done|]. split; [done|]. split; [done|].
    intros [Hin | Hin]%elem_of_union; [|done].
    apply elem_of_singleton in Hin. congruence.
  - (* response end *) exact HI2.
  - (* response start *)
    open_Inv2 w Hr HI2. close_Inv2 Hl.
  - (* thread change *)
    destruct HI2 as (Hi & Hk & Hs & Hl & He).
    unfold Inv2. cbn.
    split; [done|]. split; [done|]. split; [done|]. split; [done|].
    apply not_elem_of_empty.
  - (* widget error *) exact HI2.
  - (* retry: never offered *)
    cbn in Hen. rewrite (onRetry_off env _ Hr) in Hen.
    by rewrite andb_false_r in Hen.
  - (* unmount *)
    open_Inv2 w Hr HI2.
    destruct (isBrowser env) eqn:Hb; cbn; close_Inv2 Hl.
Qed.

Lemma Inv2_step env ev w :
  Inv env w -> Inv2 env w ->
  enabled (Part_002.component env) ev w = true ->
  Inv2 env (step (Part_002.component env) ev w).1.
Proof.
  intros HI HI2 Hen. rewrite step_after_render. cbn [fst].
  by apply after_render_Inv2, handle_Inv2.
Qed.

Lemma Inv2_mount env defined :
  Inv2 env (mount (Part_002.component env) defined).1.
Proof.
  unfold mount.
  cbn [Part_002.component c_initialState c_scriptEffect c_workflowEffect].
  set (w0 := {| panel := Part_002.initialState env defined |}).
  destruct (exec (Part_002.workflowEffect env)
              (exec (Part_002.scriptEffect env) (w0, []))) as [w1 l1] eqn:He.
  rewrite (rerender_spec env 0). cbn [fst].
  apply after_render_Inv2.
  revert He. subst w0. unfold Part_002.initialState. unfold_handlers.
  destruct (Part_002.isWorkflowConfigured env), (isBrowser env) eqn:Hb,
    defined; cbn; intros [= <- <-]; unfold Inv2; cbn;
    (split; [done|]); (split; [done|]); (split; [done|]);
    (split; [done|]); apply not_elem_of_empty.
Qed.

Lemma reachable_Inv2 env w :
  reachable (Part_002.component env) w -> Inv2 env w.
Proof.
  induction 1 as [defined | ev w Hw IH Hen].
  - apply Inv2_mount.
  - apply Inv2_step; auto. by apply reachable_Inv.
Qed.

(** X11. No handler ever records an integration error (the widget's error
    callback only logs), so in every reachable state the integration error
    is [null] and the banner is the script error or else the session
    error. *)
Theorem integration_error_never_recorded (env : Env) (w : World) :
  reachable (Part_002.component env) w ->
  integration (errors (panel w)) = None
  /\ Part_002.blockingError (errors (panel w)) =
     nullish_str (script (errors (panel w))) (session (errors (panel w))).
Proof.
  intros Hw. destruct (reachable_Inv2 env w Hw) as (Hi & _).
  split; [exact Hi|].
  unfold Part_002.blockingError, Part_002.activeError. rewrite Hi.
  by destruct (script (errors (panel w))), (session (errors (panel w))).
Qed.

Lemma integration_error_never_recorded_witness :
  let env := example_env "wf_123" in
  let C := Part_002.component env in
  integration
    (errors (panel (step C EvResponseStart
                      (step C EvError (mount C true).1).1).1)) = None.
Proof.
  intros env C.
  apply (integration_error_never_recorded env).
  repeat (apply reachable_step; [|reflexivity]). apply reachable_mount.
Defined.

(** X12. In every reachable state the script error is set exactly when
    the script status is [error], and it always starts with "Error: ". *)
Theorem script_error_matches_status (env : Env) (w : World) :
  reachable (Part_002.component env) w ->
  (is_Some (script (errors (panel w))) <-> scriptStatus (panel w) = error)
  /\ (forall m, script (errors (panel w)) = Some m ->
        String.prefix "Error: " m = true).
Proof.
  intros Hw. destruct (reachable_Inv2 env w Hw) as (_ & _ & Hs & _).
  destruct (script (errors (panel w))) as [m|].
  - destruct Hs as [Hst Hp]. split.
    + split; [done|by eexists].
    + by intros ? [= <-].
  - split; [|done]. split; [by intros [? ?]|done].
Qed.

Lemma script_error_matches_status_witness :
  let env := example_env "wf_123" in
  let C := Part_002.component env in
  let w := (step C (EvScriptError (JStr "blocked by policy"))
              (mount C false).1).1 in
  is_Some (script (errors (panel w))) <-> scriptStatus (panel w) = error.
Proof.
  intros env C w.
  apply (script_error_matches_status env w).
  apply reachable_step; [apply reachable_mount|reflexivity].
Defined.

(** X13. The reset is never offered: in every reachable state the retry
    event is disabled, so the widget instance key is still 0 and the
    widget is never remounted. *)
Theorem widget_never_remounted (env : Env) (w : World) :
  reachable (Part_002.component env) w ->
  enabled (Part_002.component env) EvRetry w = false
  /\ widgetInstanceKey (panel w) = 0.
Proof.
  intros Hw. destruct (reachable_Inv env w Hw) as [Hr _].
  destruct (reachable_Inv2 env w Hw) as (_ & Hk & _).
  split; [|exact Hk]. cbn.
  by rewrite (onRetry_off env _ Hr), andb_false_r.
Qed.

Lemma widget_never_remounted_witness :
  let env := example_env "wf_replace_me" in
  let C := Part_002.component env in
  let w := (step C EvTimeout
              (step C (EvGetClientSecret None) (mount C false).1).1).1 in
  enabled C EvRetry w = false /\ widgetInstanceKey (panel w) = 0.
Proof.
  intros env C w.
  apply (widget_never_remounted env w).
  repeat (apply reachable_step; [|reflexivity]). apply reachable_mount.
Defined.

(** X14. The window listeners and the timer belong to a mounted panel:
    once the panel is unmounted, no script event and no timeout can reach
    its handlers any more. *)
Theorem no_window_events_after_unmount (env : Env) (w : World) :
  reachable (Part_002.component env) w ->
  isMountedRef (panel w) = false ->
  listening w = false
  /\ timeoutId w = None
  /\ enabled (Part_002.component env) EvScriptLoaded w = false
  /\ (forall detail,
        enabled (Part_002.component env) (EvScriptError detail) w = false)
  /\ enabled (Part_002.component env) EvTimeout w = false.
Proof.
  intros Hw Hm.
  destruct (reachable_Inv env w Hw) as [_ Ht].
  destruct (reachable_Inv2 env w Hw) as (_ & _ & _ & Hl & _).
  assert (Hlst : listening w = false).
  { destruct (listening w); [|done]. destruct (Hl eq_refl). congruence. }
  assert (Htmr : timeoutId w = None).
  { destruct (timeoutId w) as [d|]; [|done].
    destruct (Ht d eq_refl) as (_ & _ & ? & _). congruence. }
  repeat split; auto; cbn; rewrite Htmr.
  apply bool_decide_eq_false. by intros [? ?].
Qed.

Lemma no_window_events_after_unmount_witness :
  let env := example_env "wf_123" in
  let C := Part_002.component env in
  let w := (step C EvUnmount (mount C false).1).1 in
  listening w = false /\ timeoutId w = None.
Proof.
  intros env C w.
  pose proof (no_window_events_after_unmount env w) as H.
  destruct H as (Hl & Ht & _).
  - apply reachable_step; [apply reachable_mount|reflexivity].
  - reflexivity.
  - by split.
Defined.

(** X15. The empty identifier is never in the set of processed facts. *)
Theorem empty_fact_never_processed (env : Env) (w : World) :
  reachable (Part_002.component env) w ->
  EmptyString ∉ processedFacts (panel w).
Proof.
  intros Hw. by destruct (reachable_Inv2 env w Hw) as (_ & _ & _ & _ & He).
Qed.

Lemma empty_fact_never_processed_witness :
  let env := example_env "wf_123" in
  let C := Part_002.component env in
  EmptyString ∉
    processedFacts
      (panel (step C (EvClientTool
                        {| name := "record_fact";
                           params := [("fact_id", JNull)] |})
                (mount C true).1).1).
Proof.
  intros env C.
  apply (empty_fact_never_processed env).
  apply reachable_step; [apply reachable_mount|reflexivity].
Defined.

(** ** Script events in the transition system *)

(** X16. A load event received by the listening panel always ends in the
    ready status with no script error and no armed timer, whatever the
    status was (also after a script error or a timeout), and leaves the
    session error and the loading flag alone. *)
Theorem load_event_makes_ready (env : Env) (w : World) :
  reachable (Part_002.component env) w ->
  enabled (Part_002.component env) EvScriptLoaded w = true ->
  let w' := (step (Part_002.component env) EvScriptLoaded w).1 in
  scriptStatus (panel w') = ready
  /\ script (errors (panel w')) = None
  /\ timeoutId w' = None
  /\ session (errors (panel w')) = session (errors (panel w))
  /\ isInitializingSession (panel w') = isInitializingSession (panel w).
Proof.
  intros Hw Hen w'. subst w'.
  destruct (reachable_Inv env w Hw) as [_ Ht].
  destruct (reachable_Inv2 env w Hw) as (_ & _ & _ & Hl & _).
  cbn in Hen. destruct (Hl Hen) as [Hm Hb].
  rewrite step_after_render. cbn [fst].
  destruct w as [[facts [sc se ig rt] init mounted status key]
                   defined lst tmr calls].
  cbn in *. subst. unfold after_render.
  cbn [handle Part_002.component c_handleLoaded].
  unfold_handlers. cbn. rewrite Hb.
  destruct status, defined; cbn; repeat split; try reflexivity.
  all: destruct tmr as [d|]; [|reflexivity].
  all: by destruct (Ht d eq_refl) as (_ & ? & _).
Qed.

Lemma load_event_makes_ready_witness :
  let env := example_env "wf_123" in
  let C := Part_002.component env in
  let w := (step C EvTimeout (mount C false).1).1 in
  scriptStatus (panel w) = error
  /\ scriptStatus (panel (step C EvScriptLoaded w).1) = ready
  /\ script (errors (panel (step C EvScriptLoaded w).1)) = None.
Proof.
  intros env C w. split; [reflexivity|].
  pose proof (load_event_makes_ready env w) as H.
  destruct H as (Hs & He & _).
  - apply reachable_step; [apply reachable_mount|reflexivity].
  - reflexivity.
  - by split.
Defined.

(** X17. When the timer fires after the element was registered without a
    load event, nothing happens: no error is raised, nothing is logged, and
    the panel is left as it was, its status still pending. *)
Theorem timeout_after_registration_is_silent (env : Env) (w : World) (d : Z) :
  reachable (Part_002.component env) w ->
  timeoutId w = Some d ->
  chatkitDefined w = true ->
  step (Part_002.component env) EvTimeout w =
    (world_after (set_timeoutId None w), [])
  /\ scriptStatus (panel w) = pending.
Proof.
  intros Hw Hd Hdef.
  destruct (reachable_Inv env w Hw) as [_ Ht].
  destruct (Ht d Hd) as (_ & Hs & _). split; [|exact Hs].
  rewrite step_after_render.
  destruct w as [[facts errs init mounted status key] defined lst tmr calls].
  cbn in *. subst.
  cbn [handle Part_002.component c_timeoutCallback].
  unfold_handlers. cbn. by rewrite after_render_same.
Qed.

Lemma timeout_after_registration_is_silent_witness :
  let env := example_env "wf_123" in
  let C := Part_002.component env in
  let w := (step C EvDefineElement (mount C false).1).1 in
  scriptStatus (panel (step C EvTimeout w).1) = pending
  /\ script (errors (panel (step C EvTimeout w).1)) = None.
Proof.
  intros env C w.
  pose proof (timeout_after_registration_is_silent env w 5000) as H.
  destruct H as [Hstep _].
  - apply reachable_step; [apply reachable_mount|reflexivity].
  - reflexivity.
  - reflexivity.
  - subst C. rewrite Hstep. by split.
Defined.

(** ** Requests over whole runs *)

Lemma only_fetches_app l1 l2 :
  only_fetches (l1 ++ l2) = only_fetches l1 ++ only_fetches l2.
Proof.
  induction l1 as [|e l1 IH]; cbn; [done|].
  destruct (is_fetch e); cbn; by rewrite IH.
Qed.

Lemma onClientTool_no_fetch env invocation w :
  only_fetches (effects_of (Part_002.onClientTool env invocation w)) = [].
Proof.
  unfold Part_002.onClientTool.
  destruct (String.eqb (name invocation) "switch_theme").
  - destruct (Part_002.requestedScheme _); unfold_proc;
      destruct (isDev env); reflexivity.
  - destruct (String.eqb (name invocation) "record_fact"); [|reflexivity].
    unfold_proc. cbn. destruct (negb _ || _); reflexivity.
Qed.

(** The requests of one turn: one for a call on a configured workflow,
    none otherwise. *)
Lemma step_fetches env ev w :
  only_fetches (step (Part_002.component env) ev w).2 =
  match ev with
  | EvGetClientSecret _ =>
      if Part_002.isWorkflowConfigured env
      then [Fetch (CREATE_SESSION_ENDPOINT env) "POST" (WORKFLOW_ID env)]
      else []
  | _ => []
  end.
Proof.
  rewrite step_after_render. cbn [snd].
  destruct ev;
    cbn [handle Part_002.component c_handleLoaded c_handleError
      c_timeoutCallback c_getClientSecret_request c_getClientSecret_response
      c_onClientTool c_onResponseEnd c_onResponseStart c_onThreadChange
      c_onError c_onRetry c_scriptEffectCleanup c_mountedCleanup];
    try (rewrite exec_effects; apply onClientTool_no_fetch);
    destruct w as [[facts errs init mounted status key] defined lst tmr calls];
    unfold_handlers; cbn.
  - reflexivity.
  - destruct mounted; reflexivity.
  - destruct mounted; reflexivity.
  - destruct defined, mounted; reflexivity.
  - destruct (isDev env), (Part_002.isWorkflowConfigured env), mounted,
      (opt_truthy currentSecret); reflexivity.
  - destruct mounted; split_call env currentSecret net; reflexivity.
  - reflexivity.
  - reflexivity.
  - reflexivity.
  - reflexivity.
  - unfold Part_002.onRetry.
    destruct (opt_truthy _ && _); [|reflexivity].
    unfold_handlers. cbn. destruct (isBrowser env); reflexivity.
  - destruct (isBrowser env); reflexivity.
Qed.

(** X18. No request is ever made on the panel's own initiative: over any
    run the requests issued are exactly one per call of [getClientSecret]
    when the workflow is configured, and none at all when it is not. *)
Theorem requests_only_on_calls (env : Env) (evs : list Event) (w : World) :
  only_fetches (run (Part_002.component env) evs w).2 =
  if Part_002.isWorkflowConfigured env
  then replicate (count_calls evs)
         (Fetch (CREATE_SESSION_ENDPOINT env) "POST" (WORKFLOW_ID env))
  else [].
Proof.
  revert w. induction evs as [|ev evs IH]; intros w.
  - cbn. by destruct (Part_002.isWorkflowConfigured env).
  - cbn [run].
    pose proof (step_fetches env ev w) as Hstep.
    destruct (step (Part_002.component env) ev w) as [w1 l1].
    specialize (IH w1).
    destruct (run (Part_002.component env) evs w1) as [w2 l2].
    cbn [snd] in *. rewrite only_fetches_app, Hstep, IH.
    destruct ev, (Part_002.isWorkflowConfigured env); reflexivity.
Qed.

(** ** What the render shows *)

(** X19. At every render exactly one of three holds: the widget is shown
    interactive, the loading overlay is drawn, or the blocking error is a
    non-empty message; the status indicator reads "Online" exactly when the
    widget is the one shown. *)
Theorem render_shows_one_of_three (p : PanelState) :
  let error_truthy := opt_truthy (Part_002.blockingError (errors p)) in
  let widget_shown := negb (widgetHidden p) in
  (widget_shown = true /\ loadingOverlayShown p = false /\ error_truthy = false
   \/ widget_shown = false /\ loadingOverlayShown p = true /\ error_truthy = false
   \/ widget_shown = false /\ loadingOverlayShown p = false /\ error_truthy = true)
  /\ (Part_002.statusLabel p = "Online" <-> widget_shown = true).
Proof.
  unfold widgetHidden, loadingOverlayShown, Part_002.statusLabel.
  destruct (opt_truthy (Part_002.blockingError (errors p))),
    (isInitializingSession p); cbn; split; try tauto; split; try done;
    auto 10.
Qed.

Lemma render_shows_one_of_three_witness :
  let p := Part_002.initialState (example_env "wf_123") false in
  Part_002.statusLabel p = "Online" <-> negb (widgetHidden p) = true.
Proof.
  intros p. apply (render_shows_one_of_three p).
Defined.

(** ** The text of a relayed fact *)

Lemma collapse_no_runs s :
  forall in_run,
    no_runs (collapse_whitespace in_run s) = true
    /\ (in_run = true ->
        starts_with_whitespace (collapse_whitespace in_run s) = false).
Proof.
  induction s as [|c rest IH]; intros in_run; cbn; [done|].
  destruct (is_whitespace c) eqn:Hc.
  - destruct in_run.
    + apply IH.
    + destruct (IH true) as [Hn Hs]. cbn.
      rewrite Hn, (Hs eq_refl). done.
  - cbn. rewrite Hc. destruct (IH false) as [Hn _]. by rewrite Hn.
Qed.

Lemma trim_start_no_runs s :
  no_runs s = true ->
  no_runs (trim_start s) = true
  /\ starts_with_whitespace (trim_start s) = false.
Proof.
  induction s as [|c rest IH]; cbn; [done|].
  destruct (is_whitespace c) eqn:Hc; cbn.
  - intros [_ Hn]%andb_prop. by apply IH.
  - rewrite Hc. cbn. done.
Qed.

(** [trim_end] only removes at the end: what it keeps starts as the text
    does. *)
Lemma trim_end_head s c kept :
  trim_end s = String c kept -> exists rest, s = String c rest.
Proof.
  destruct s as [|c0 rest]; cbn; [done|].
  destruct (trim_end rest); [destruct (is_whitespace c0)|];
    intros [= <- <-]; by eexists.
Qed.

Lemma trim_end_starts s :
  starts_with_whitespace s = false ->
  starts_with_whitespace (trim_end s) = false.
Proof.
  intros Hs. destruct (trim_end s) as [|c kept] eqn:Ht; [done|].
  apply trim_end_head in Ht as [rest ->]. exact Hs.
Qed.

Lemma single_spaced_cons c c' kept :
  single_spaced (String c (String c' kept)) =
  if is_whitespace c
  then Ascii.eqb c " " && negb (is_whitespace c')
       && single_spaced (String c' kept)
  else single_spaced (String c' kept).
Proof. reflexivity. Qed.

Lemma trim_end_single_spaced s :
  no_runs s = true -> single_spaced (trim_end s) = true.
Proof.
  induction s as [|c rest IH]; cbn; [done|].
  intros [Hc Hn]%andb_prop. specialize (IH Hn).
  destruct (trim_end rest) as [|c' kept] eqn:Ht.
  - destruct (is_whitespace c) eqn:Hws; cbn; [done|]. by rewrite Hws.
  - rewrite single_spaced_cons.
    destruct (is_whitespace c) eqn:Hws; [|exact IH].
    apply andb_prop in Hc as [Heq Hnext].
    apply trim_end_head in Ht as Hrest. destruct Hrest as [rest' ->].
    cbn in Hnext. rewrite Heq, Hnext, IH. done.
Qed.

Lemma collapse_without_whitespace s :
  forall in_run,
    without_whitespace (collapse_whitespace in_run s) = without_whitespace s.
Proof.
  induction s as [|c rest IH]; intros in_run; cbn; [done|].
  destruct (is_whitespace c) eqn:Hc.
  - destruct in_run; cbn; apply IH.
  - cbn. rewrite Hc. by rewrite IH.
Qed.

Lemma trim_start_without_whitespace s :
  without_whitespace (trim_start s) = without_whitespace s.
Proof.
  induction s as [|c rest IH]; cbn; [done|].
  destruct (is_whitespace c) eqn:Hc; cbn; [exact IH|]. by rewrite Hc.
Qed.

Lemma trim_end_without_whitespace s :
  without_whitespace (trim_end s) = without_whitespace s.
Proof.
  induction s as [|c rest IH]; cbn; [done|].
  destruct (trim_end rest) as [|c' kept]; cbn in *.
  - rewrite <- IH. destruct (is_whitespace c) eqn:Hc; cbn; [done|].
    by rewrite Hc.
  - rewrite <- IH. reflexivity.
Qed.

(** X20. The text relayed with a new fact is the invocation's text tidied:
    it has the same code units other than whitespace, in the same order,
    it neither starts nor ends with whitespace, and its only whitespace is
    single spaces between other code units. *)
Theorem relayed_fact_text_is_tidy
    (env : Env) (invocation : Invocation) (w : World) :
  name invocation = "record_fact" ->
  factIdOf env invocation <> EmptyString ->
  factIdOf env invocation ∉ processedFacts (panel w) ->
  exists text,
    effects_of (Part_002.onClientTool env invocation w) =
      [CallOnWidgetAction
         {| factId := factIdOf env invocation; factText := text |}]
    /\ text = trim (collapse_whitespace false (factTextOf env invocation))
    /\ single_spaced text = true
    /\ starts_with_whitespace text = false
    /\ without_whitespace text =
       without_whitespace (factTextOf env invocation).
Proof.
  intros Hname Hid Hnew.
  exists (trim (collapse_whitespace false (factTextOf env invocation))).
  split; [|split; [reflexivity|]].
  - unfold Part_002.onClientTool. rewrite Hname.
    cbn [String.eqb Ascii.eqb Bool.eqb].
    fold (factIdOf env invocation). fold (factTextOf env invocation).
    unfold_proc. cbn.
    rewrite (bool_decide_eq_false_2 _ Hnew).
    destruct (factIdOf env invocation); [done|]. reflexivity.
  - unfold trim.
    destruct (collapse_no_runs (factTextOf env invocation) false) as [Hn _].
    destruct (trim_start_no_runs _ Hn) as [Hn' Hs'].
    split; [by apply trim_end_single_spaced|].
    split; [by apply trim_end_starts|].
    by rewrite trim_end_without_whitespace, trim_start_without_whitespace,
      collapse_without_whitespace.
Qed.

Lemma relayed_fact_text_is_tidy_witness :
  let env := example_env "wf_123" in
  let invocation :=
    {| name := "record_fact";
       params := [("fact_id", JNum 7);
                  ("fact_text", JStr "  likes   green tea  ")] |} in
  exists text,
    effects_of
      (Part_002.onClientTool env invocation
         (mount (Part_002.component env) true).1) =
      [CallOnWidgetAction {| factId := "7"; factText := text |}]
    /\ text = "likes green tea".
Proof.
  intros env invocation.
  destruct (relayed_fact_text_is_tidy env invocation
              (mount (Part_002.component env) true).1)
    as (text & Heff & Htext & _).
  - reflexivity.
  - discriminate.
  - apply not_elem_of_empty.
  - exists text. split; [exact Heff|]. rewrite Htext. reflexivity.
Defined.

Lemma collapse_single_spaced s :
  single_spaced s = true ->
  collapse_whitespace false s = s
  /\ (starts_with_whitespace s = false -> collapse_whitespace true s = s).
Proof.
  induction s as [|c rest IH]; cbn; [done|].
  destruct (is_whitespace c) eqn:Hc.
  - intros [[Heq Hnext]%andb_prop Hrest]%andb_prop.
    apply Ascii.eqb_eq in Heq as ->.
    destruct (IH Hrest) as [_ IHtrue].
    split; [|done].
    rewrite IHtrue; [done|].
    destruct rest; [done|]. cbn in *. by apply negb_true_iff.
  - intros Hrest. destruct (IH Hrest) as [IHfalse _].
    rewrite IHfalse. done.
Qed.

Lemma trim_end_single_spaced_id s :
  single_spaced s = true -> trim_end s = s.
Proof.
  induction s as [|c rest IH]; cbn; [done|].
  destruct (is_whitespace c) eqn:Hc.
  - intros [[_ Hnext]%andb_prop Hrest]%andb_prop.
    rewrite (IH Hrest). by destruct rest.
  - intros Hrest. rewrite (IH Hrest). by destruct rest.
Qed.

(** X21. Tidying is idempotent: a text that is already tidy is returned
    as it is, so tidying twice gives what tidying once gives. *)
Theorem tidy_text_is_fixed (s : string) :
  (single_spaced s = true -> starts_with_whitespace s = false ->
   trim (collapse_whitespace false s) = s)
  /\ trim (collapse_whitespace false (trim (collapse_whitespace false s))) =
     trim (collapse_whitespace false s).
Proof.
  assert (Hfix : forall t,
    single_spaced t = true -> starts_with_whitespace t = false ->
    trim (collapse_whitespace false t) = t).
  { intros t Ht Hs. destruct (collapse_single_spaced t Ht) as [-> _].
    unfold trim. destruct t as [|c rest]; [done|].
    cbn in Hs. cbn [trim_start]. rewrite Hs.
    by apply trim_end_single_spaced_id. }
  split; [apply Hfix|].
  unfold trim at 2 3.
  destruct (collapse_no_runs s false) as [Hn _].
  destruct (trim_start_no_runs _ Hn) as [Hn' Hs'].
  apply Hfix; [by apply trim_end_single_spaced|by apply trim_end_starts].
Qed.

Lemma tidy_text_is_fixed_witness :
  trim (collapse_whitespace false "likes green tea") = "likes green tea".
Proof.
  apply (tidy_text_is_fixed "likes green tea"); reflexivity.
Defined.

(** ** Edge cases of the error extraction *)

(** X22. The extraction falls back on the given text for every payload
    that is not an object ([null], [undefined], booleans, numbers, strings
    and arrays) and for an object that has none of the keys [error],
    [details] and [message]. *)
Theorem extractErrorDetail_falls_back (payload : JValue) (fallback : string) :
  match payload with
  | JObj fields =>
      lookup_field "error" fields = None
      /\ lookup_field "details" fields = None
      /\ lookup_field "message" fields = None
  | _ => True
  end ->
  Part_002.extractErrorDetail payload fallback = fallback.
Proof.
  unfold Part_002.extractErrorDetail.
  destruct payload as [| |b|n|s|items|fields]; cbn; try done.
  - by destruct b.
  - by destruct (n =? 0).
  - by destruct s.
  - by intros (-> & -> & ->).
Qed.

Lemma extractErrorDetail_falls_back_witness :
  Part_002.extractErrorDetail (JArr [JStr "quota exceeded"]) "Bad Gateway"
  = "Bad Gateway"
  /\ Part_002.extractErrorDetail (JObj [("code", JNum 42)]) "Bad Gateway"
     = "Bad Gateway".
Proof.
  split.
  - by apply (extractErrorDetail_falls_back (JArr [JStr "quota exceeded"])).
  - by apply (extractErrorDetail_falls_back (JObj [("code", JNum 42)])).
Defined.

(** ** The state after the mount *)

Lemma mount_world env defined :
  (mount (Part_002.component env) defined).1 =
    {| panel :=
         {| processedFacts := ∅;
            errors :=
              {| script := None;
                 session :=
                   if Part_002.isWorkflowConfigured env then None
                   else Some missingWorkflowMessage;
                 integration := None;
                 retryable := false |};
            isInitializingSession := Part_002.isWorkflowConfigured env;
            isMountedRef := true;
            scriptStatus := if isBrowser env && defined then ready else pending;
            widgetInstanceKey := 0 |};
       chatkitDefined := defined;
       listening := isBrowser env;
       timeoutId := if isBrowser env && negb defined then Some 5000 else None;
       pendingCalls := [] |}.
Proof.
  unfold mount.
  cbn [Part_002.component c_initialState c_scriptEffect c_workflowEffect].
  set (w0 := {| panel := Part_002.initialState env defined |}).
  destruct (exec (Part_002.workflowEffect env)
              (exec (Part_002.scriptEffect env) (w0, []))) as [w1 l1] eqn:He.
  rewrite (rerender_spec env 0).
  revert He. subst w0. unfold Part_002.initialState, after_render.
  unfold_handlers.
  destruct (Part_002.isWorkflowConfigured env), (isBrowser env) eqn:Hb,
    defined; cbn; intros [= <- <-]; cbn; rewrite ?Hb; reflexivity.
Qed.

(** X23. The state a mount leaves (first render and its effects):
    listeners exactly in a browser; the ready status at once when the
    element is registered there, and otherwise the pending status with the
    5000 ms timer armed in a browser; the loading flag up exactly when the
    workflow is configured, the configuration message as session error when
    it is not; no other error, no call suspended, and no request issued. *)
Theorem mount_state (env : Env) (defined : bool) :
  (mount (Part_002.component env) defined).1 =
    {| panel :=
         {| processedFacts := ∅;
            errors :=
              {| script := None;
                 session :=
                   if Part_002.isWorkflowConfigured env then None
                   else Some missingWorkflowMessage;
                 integration := None;
                 retryable := false |};
            isInitializingSession := Part_002.isWorkflowConfigured env;
            isMountedRef := true;
            scriptStatus := if isBrowser env && defined then ready else pending;
            widgetInstanceKey := 0 |};
       chatkitDefined := defined;
       listening := isBrowser env;
       timeoutId := if isBrowser env && negb defined then Some 5000 else None;
       pendingCalls := [] |}
  /\ only_fetches (mount (Part_002.component env) defined).2 = [].
Proof.
  split; [apply mount_world|].
  unfold mount.
  cbn [Part_002.component c_initialState c_scriptEffect c_workflowEffect].
  set (w0 := {| panel := Part_002.initialState env defined |}).
  destruct (exec (Part_002.workflowEffect env)
              (exec (Part_002.scriptEffect env) (w0, []))) as [w1 l1] eqn:He.
  rewrite (rerender_spec env 0). cbn [snd].
  revert He. subst w0. unfold Part_002.initialState. unfold_handlers.
  destruct (Part_002.isWorkflowConfigured env), (isBrowser env) eqn:Hb,
    defined; cbn; intros [= <- <-]; reflexivity.
Qed.

(** ** Script readiness: the timer and the stickiness of readiness *)







